(** * Order-fulfilment saga: the charge activity and the OrderWorkflow state machine

    A shallow embedding of [src/app/utils.py], [src/app/activities.py]
    (the charge activity) and [src/app/workflows.py] (OrderWorkflow),
    followed by the properties of the saga that the design document states. *)

From Stdlib Require Import Ascii String QArith ZArith Lia.
From stdpp Require Import base option list strings gmap.

Set Warnings "-register-all".
Local Open Scope string_scope.
Local Open Scope list_scope.

(** ** Python values and exceptions *)

Module py.

(** JSON-like Python values: what activities and workflows exchange.  Python's
    [int] and [float] are both [VNum], a float being a number that
    [nearest_double] below leaves as it is. *)
Inductive value : Type :=
| VNone
| VBool (b : bool)
| VNum (q : Q)
| VStr (s : string)
| VList (l : list value)
| VDict (d : list (string * value)).

(** A call either returns or raises; an exception is kept as [str(exc)]. *)
Inductive outcome (A : Type) : Type :=
| Returned (a : A)
| Raised (exc : string).
Arguments Returned {A} a.
Arguments Raised {A} exc.

(** Truthiness, as used by [x or y], [not x] and [bool(x)]. *)
Definition truthy (v : value) : bool :=
  match v with
  | VNone => false
  | VBool b => b
  | VNum q => negb (Qeq_bool q 0)
  | VStr s => negb (String.eqb s "")
  | VList l => match l with [] => false | _ => true end
  | VDict d => match d with [] => false | _ => true end
  end.

(** [d.get(k)] on a dict given by its items. *)
Fixpoint dict_get (k : string) (d : list (string * value)) : option value :=
  match d with
  | [] => None
  | (k', v) :: d' => if String.eqb k k' then Some v else dict_get k d'
  end.

(** [v.get(k, default)]: an [AttributeError] when [v] is not a dict. *)
Definition get (v : value) (k : string) (dflt : value) : outcome value :=
  match v with
  | VDict d => Returned (default dflt (dict_get k d))
  | _ => Raised "object has no attribute 'get'"
  end.

(** The entry of a dict under a key, if the value is a dict that has one. *)
Definition entry (k : string) (v : value) : option value :=
  match v with
  | VDict d => dict_get k d
  | _ => None
  end.

(** An optional string as a value: [None] or a [str]. *)
Definition of_opt (o : option string) : value :=
  match o with Some s => VStr s | None => VNone end.

(** [s or d] for an optional string: [None] and [''] are falsy. *)
Definition str_or (o : option string) (d : string) : string :=
  match o with
  | Some s => if String.eqb s "" then d else s
  | None => d
  end.

(** [not s] for an optional string. *)
Definition missing (o : option string) : bool :=
  match o with
  | Some s => String.eqb s ""
  | None => true
  end.

(** [num / den] rounded to an integer, a tie going to the even one. *)
Definition round_half_even (num den : Z) : Z :=
  let q := (num / den)%Z in
  let r := (num mod den)%Z in
  match (2 * r ?= den)%Z with
  | Lt => q
  | Gt => (q + 1)%Z
  | Eq => if Z.even q then q else (q + 1)%Z
  end.

(** The exponent of the leading bit of [num / den], both positive. *)
Definition leading_exponent (num den : Z) : Z :=
  let e := (Z.log2 num - Z.log2 den)%Z in
  if (0 <=? e)%Z
  then (if (den * 2 ^ e <=? num)%Z then e else e - 1)%Z
  else (if (den <=? num * 2 ^ (- e))%Z then e else e - 1)%Z.

(** [float(x)] for a number [x]: the nearest IEEE 754 double (53 significant
    bits, the smallest spacing [2 ^ -1074]), a tie going to the even
    significand, and an [OverflowError] when that would be [2 ^ 1024] or
    more.  A number that is a double already comes back as it is. *)
Definition nearest_double (x : Q) : outcome Q :=
  let num := Z.abs (Qnum x) in
  let den := Zpos (Qden x) in
  if (num =? 0)%Z then Returned x
  else
    let s := Z.max (leading_exponent num den - 52) (-1074) in
    let m := if (0 <=? s)%Z then round_half_even num (den * 2 ^ s)
             else round_half_even (num * 2 ^ (- s)) den in
    if (0 <=? s)%Z && (2 ^ 1024 <=? m * 2 ^ s)%Z
    then Raised "int too large to convert to float"
    else
      let r := if (0 <=? s)%Z then inject_Z (Z.sgn (Qnum x) * (m * 2 ^ s))
               else Qmake (Z.sgn (Qnum x) * m) (Z.to_pos (2 ^ (- s))) in
      Returned (if Qeq_bool r x then x else Qred r).

(** [str.lower()] on the ASCII letters. *)
Definition lower_ascii (c : ascii) : ascii :=
  let n := nat_of_ascii c in
  if (65 <=? n)%nat && (n <=? 90)%nat then ascii_of_nat (n + 32) else c.

Fixpoint lower (s : string) : string :=
  match s with
  | EmptyString => EmptyString
  | String c s' => String (lower_ascii c) (lower s')
  end.

(** [sub in s]. *)
Fixpoint contains (sub s : string) : bool :=
  String.prefix sub s ||
  match s with
  | EmptyString => false
  | String _ s' => contains sub s'
  end.

End py.
Export py.

(** ** The persistent store and the collaborators of the activities *)

Module store.

(** A row of [payments], keyed by [payment_id]. *)
Record payment_row : Type := PaymentRow {
  row_order_id : string;
  row_status : string;
  row_amount : Q
}.

(** A row of [events]: [(order_id, type, payload_json)]. *)
Record event_row : Type := EventRow {
  ev_order_id : string;
  ev_type : string;
  ev_payload : value
}.

(** The three tables; [orders] maps an order id to its [state]. *)
Record database : Type := Database {
  payments : gmap string payment_row;
  orders : gmap string string;
  events : list event_row
}.

(** The statements that [utils.py] hands to [conn.execute]. *)
Inductive statement : Type :=
| InsertEvent (order_id event_type : string) (payload_json : value)
| UpsertOrder (order_id status : string)
| InsertPaymentInit (payment_id order_id : string)
| UpdatePaymentCharged (payment_id : string) (amount : Q)
| UpdatePaymentFailed (payment_id : string).

Definition execute_statement (st : statement) (d : database) : database :=
  match st with
  | InsertEvent oid ty pl =>
      (* INSERT INTO events (order_id, type, payload_json) VALUES ($1, $2, $3) *)
      Database (payments d) (orders d) (events d ++ [EventRow oid ty pl])
  | UpsertOrder oid st =>
      (* INSERT INTO orders ... ON CONFLICT (id) DO UPDATE SET state = EXCLUDED.state *)
      Database (payments d) (<[oid := st]> (orders d)) (events d)
  | InsertPaymentInit pid oid =>
      (* INSERT INTO payments ... VALUES ($1, $2, 'INIT', 0, now())
         ON CONFLICT (payment_id) DO NOTHING *)
      match payments d !! pid with
      | Some _ => d
      | None => Database (<[pid := PaymentRow oid "INIT" 0]> (payments d)) (orders d) (events d)
      end
  | UpdatePaymentCharged pid amount =>
      (* UPDATE payments SET status='CHARGED', amount=$2 WHERE payment_id=$1 *)
      match payments d !! pid with
      | Some r =>
          Database (<[pid := PaymentRow (row_order_id r) "CHARGED" amount]> (payments d))
                   (orders d) (events d)
      | None => d
      end
  | UpdatePaymentFailed pid =>
      (* UPDATE payments SET status='FAILED' WHERE payment_id=$1 *)
      match payments d !! pid with
      | Some r =>
          Database (<[pid := PaymentRow (row_order_id r) "FAILED" (row_amount r)]> (payments d))
                   (orders d) (events d)
      | None => d
      end
  end.

(** What an activity invocation can see and change: the store, the number of
    store calls made so far, and the calls made to the payment gateway. *)
Record world : Type := World {
  db : database;
  db_calls : nat;
  gateway_calls : list (value * string)
}.

(** The collaborators, which are not part of the code under verification:
    - [db_fault n]: whether the [n]-th call to the store (a connect, an
      execute, a fetchrow or a close) raises, and with which message;
    - [payment_charged n order payment_id]: the payment gateway of
      [function_stubs], at its [n]-th invocation;
    - [repr]: Python's [repr] of a string;
    - [float_of_str]: Python's [float] of a string, [None] for a [ValueError]. *)
Record collaborators : Type := Collaborators {
  db_fault : nat -> option string;
  payment_charged : nat -> value -> string -> outcome value;
  repr : string -> string;
  float_of_str : string -> option Q
}.

(** Activities are state transformers over the world that may raise. *)
Definition M (A : Type) : Type := world -> outcome A * world.

Definition ret {A} (a : A) : M A := fun w => (Returned a, w).

Definition bind {A B} (m : M A) (k : A -> M B) : M B :=
  fun w =>
    match m w with
    | (Returned a, w') => k a w'
    | (Raised exc, w') => (Raised exc, w')
    end.

(** [try: m except Exception as exc: h exc] *)
Definition try_except {A} (m : M A) (h : string -> M A) : M A :=
  fun w =>
    match m w with
    | (Returned a, w') => (Returned a, w')
    | (Raised exc, w') => h exc w'
    end.

(** [try: m finally: fin]; an exception of [fin] replaces the outcome of [m]. *)
Definition try_finally {A} (m : M A) (fin : M unit) : M A :=
  fun w =>
    match m w with
    | (r, w') =>
        match fin w' with
        | (Returned _, w'') => (r, w'')
        | (Raised exc, w'') => (Raised exc, w'')
        end
    end.

(** Lifting a pure computation that may raise. *)
Definition lift {A} (r : outcome A) : M A := fun w => (r, w).

(** The store answers its next [k] calls without a fault. *)
Definition store_sound (ext : collaborators) (w : world) (k : nat) : Prop :=
  forall i, (i < k)%nat -> db_fault ext (db_calls w + i) = None.

Declare Scope activity_scope.
Delimit Scope activity_scope with act.
Notation "x <- m ;; k" := (bind m (fun x => k))
  (at level 100, m at next level, right associativity) : activity_scope.
Notation "m ;; k" := (bind m (fun _ => k))
  (at level 100, right associativity) : activity_scope.

End store.
Export store.

(** ** [src/app/utils.py] *)

Module utils.
Section with_collaborators.
Context (ext : collaborators).
Local Open Scope activity_scope.

(** One call to the store ([db.connect], [conn.execute], [conn.fetchrow],
    [conn.close]): it is counted and raises when the store says so; a call
    that raises has no effect on the tables. *)
Definition store_call : M unit :=
  fun w =>
    let w' := World (db w) (S (db_calls w)) (gateway_calls w) in
    match db_fault ext (db_calls w) with
    | Some exc => (Raised exc, w')
    | None => (Returned tt, w')
    end.

Definition connect : M unit := store_call.

Definition close : M unit := store_call.

Definition execute (st : statement) : M unit :=
  store_call ;;
  fun w => (Returned tt, World (execute_statement st (db w)) (db_calls w) (gateway_calls w)).

(** [SELECT payment_id, order_id, status, amount FROM payments WHERE payment_id=$1] *)
Definition fetchrow_payment (payment_id : string) : M (option payment_row) :=
  store_call ;;
  fun w => (Returned (payments (db w) !! payment_id), w).

(** [json.dumps(payload or {})]: the event keeps the payload itself. *)
Definition payload_or_empty (payload : value) : value :=
  if truthy payload then payload else VDict [].

(** The body shared by the functions that write:
    [conn = await db.connect()], then [try: await conn.execute(...)]
    [finally: await conn.close()]. *)
Definition write (st : statement) : M unit :=
  connect ;;
  try_finally (execute st) close.

Definition insert_event (order_id event_type : string) (payload : value) : M unit :=
  let payload_json := payload_or_empty payload in
  write (InsertEvent order_id event_type payload_json).

Definition upsert_order (order_id status : string) : M unit :=
  write (UpsertOrder order_id status).

Definition update_order_status (order_id status : string) : M unit :=
  upsert_order order_id status.

(** The row as the dict [{payment_id, order_id, status, amount}], or [None]. *)
Definition ensure_payment_idempotent (payment_id : string) : M (option payment_row) :=
  connect ;;
  try_finally
    (row <- fetchrow_payment payment_id ;;
     match row with
     | None => ret None
     | Some r => ret (Some (PaymentRow (row_order_id r) (row_status r) (row_amount r)))
     end)
    close.

Definition insert_payment_init (payment_id order_id : string) : M unit :=
  write (InsertPaymentInit payment_id order_id).

Definition update_payment_charged (payment_id : string) (amount : Q) : M unit :=
  write (UpdatePaymentCharged payment_id amount).

Definition update_payment_failed (payment_id : string) : M unit :=
  write (UpdatePaymentFailed payment_id).

End with_collaborators.
End utils.

(** ** [src/app/activities.py]: the charge activity *)

Module activities.

(** The order dict as the activities use it: its ["order_id"] entry ([None]
    when absent or [None]) and its other entries. *)
Record order : Type := Order {
  order_id : option string;
  order_entries : list (string * value)
}.

(** The payload [{"order": ..., "payment_id": ...}]; an entry is [None] when
    absent or [None]. *)
Record charge_payload : Type := ChargePayload {
  payload_order : option order;
  payload_payment_id : option string
}.

Definition order_value (o : order) : value :=
  VDict (("order_id", of_opt (order_id o)) :: order_entries o).

(** [x] when it is truthy: [if not x] takes the other branch. *)
Definition present (o : option string) : option string :=
  if missing o then None else o.

(** [float(v)] *)
Definition float (ext : collaborators) (v : value) : outcome Q :=
  match v with
  | VNum q => nearest_double q
  | VBool b => Returned (if b then 1 else 0)%Q
  | VStr s =>
      match float_of_str ext s with
      | Some q => Returned q
      | None => Raised "could not convert string to float"
      end
  | _ => Raised "float() argument must be a string or a real number"
  end.

Section with_collaborators.
Context (ext : collaborators).
Local Open Scope activity_scope.

Definition repr_opt (o : option string) : string :=
  match o with Some s => repr ext s | None => "None" end.

(** [await payment_charged(order, payment_id, None)]: the call is logged. *)
Definition call_payment_charged (o : order) (payment_id : string) : M value :=
  fun w =>
    (payment_charged ext (length (gateway_calls w)) (order_value o) payment_id,
     World (db w) (db_calls w) (gateway_calls w ++ [(order_value o, payment_id)])).

(** Lines 56-60: missing identifiers. *)
Definition reject_missing (order_id payment_id : option string) : M value :=
  let err := "missing identifiers (order_id=" +:+ repr_opt order_id
             +:+ ", payment_id=" +:+ repr_opt payment_id +:+ ")" in
  utils.insert_event ext (str_or order_id "unknown") "PAYMENT_FAILED"
    (VDict [("payment_id", of_opt payment_id); ("error", VStr err)]) ;;
  ret (VDict [("status", VStr "failed"); ("payment_id", of_opt payment_id);
              ("error", VStr err)]).

(** Lines 67-75: the ledger row is already CHARGED. *)
Definition already_charged (order_id payment_id : string) (existing : payment_row) : M value :=
  try_except
    (utils.insert_event ext order_id "PAYMENT_ALREADY_CHARGED"
       (VDict [("payment_id", VStr payment_id); ("amount", VNum (row_amount existing))]))
    (fun _ => ret tt) ;;
  ret (VDict [("status", VStr "already_charged"); ("amount", VNum (row_amount existing))]).

(** Lines 77-104: the gateway call and its two outcomes. *)
Definition charge_through_gateway (o : order) (order_id payment_id : string) : M value :=
  try_except
    (result <- call_payment_charged o payment_id ;;
     amount_entry <- lift (get result "amount" (VNum 0)) ;;
     amount <- lift (float ext amount_entry) ;;
     utils.update_payment_charged ext payment_id amount ;;
     utils.insert_event ext order_id "PAYMENT_CHARGED"
       (VDict [("payment_id", VStr payment_id); ("result", result)]) ;;
     utils.update_order_status ext order_id "PAID" ;;
     ret (VDict [("status", VStr "charged"); ("amount", VNum amount)]))
    (fun err =>
       try_except (utils.update_payment_failed ext payment_id) (fun _ => ret tt) ;;
       try_except
         (utils.insert_event ext order_id "PAYMENT_FAILED"
            (VDict [("payment_id", VStr payment_id); ("error", VStr err)]) ;;
          utils.update_order_status ext order_id "PAYMENT_FAILED")
         (fun _ => ret tt) ;;
       ret (VDict [("status", VStr "failed"); ("payment_id", VStr payment_id);
                   ("error", VStr err)])).

Definition charge_payment_activity (payload : option charge_payload) : M value :=
  let o := default (Order None []) (payload ≫= payload_order) in
  let payment_id := payload ≫= payload_payment_id in
  let order_id := order_id o in
  match present payment_id, present order_id with
  | Some pid, Some oid =>
      utils.insert_payment_init ext pid oid ;;
      existing <- utils.ensure_payment_idempotent ext pid ;;
      match existing with
      | Some row =>
          if String.eqb (row_status row) "CHARGED"
          then already_charged oid pid row
          else charge_through_gateway o oid pid
      | None => charge_through_gateway o oid pid
      end
  | _, _ => reject_missing order_id payment_id
  end.

End with_collaborators.
End activities.

(** ** [src/app/workflows.py]: OrderWorkflow *)

Module workflows.

Definition RECV_ACT : string := "receive_order_activity".
Definition VALIDATE_ACT : string := "validate_order_activity".
Definition CHARGE_ACT : string := "charge_payment_activity".

(** [timedelta(seconds=10)], in milliseconds. *)
Definition MANUAL_REVIEW_WINDOW : Z := 10000.

Definition _is_timeout_exception (exc : string) : bool :=
  let msg := lower exc in
  contains "timed out" msg || contains "timeout" msg.

(** The attributes of an OrderWorkflow instance; [_address] is unset until
    an UpdateAddress signal stores it. *)
Record OrderWorkflow : Type := Instance {
  order_id : option string;
  current_step : string;
  _approved : bool;
  _cancelled : bool;
  _last_error : option string;
  _address : option value
}.

(** [__init__] *)
Definition init : OrderWorkflow := Instance None "initialized" false false None None.

(** *** Signals *)

Definition CancelOrder (reason : string) (self : OrderWorkflow) : OrderWorkflow :=
  Instance (order_id self) (current_step self) (_approved self) true
           (_last_error self) (_address self).

Definition UpdateAddress (address : value) (self : OrderWorkflow) : OrderWorkflow :=
  Instance (order_id self) (current_step self) (_approved self) (_cancelled self)
           (_last_error self) (Some address).

Definition Approve (self : OrderWorkflow) : OrderWorkflow :=
  Instance (order_id self) (current_step self) true (_cancelled self)
           (_last_error self) (_address self).

Definition DispatchFailed (reason : string) (self : OrderWorkflow) : OrderWorkflow :=
  Instance (order_id self) (current_step self) (_approved self) (_cancelled self)
           (Some ("DispatchFailed: " +:+ reason)) (_address self).

Inductive signal : Type :=
| SigCancelOrder (reason : string)
| SigUpdateAddress (address : value)
| SigApprove
| SigDispatchFailed (reason : string).

Definition handle (sg : signal) (self : OrderWorkflow) : OrderWorkflow :=
  match sg with
  | SigCancelOrder reason => CancelOrder reason self
  | SigUpdateAddress address => UpdateAddress address self
  | SigApprove => Approve self
  | SigDispatchFailed reason => DispatchFailed reason self
  end.

(** The handlers of the signals delivered during one suspension, in order. *)
Definition deliver (sigs : list signal) (self : OrderWorkflow) : OrderWorkflow :=
  fold_left (fun s sg => handle sg s) sigs self.

(** *** Query *)

(** The dict [{"order_id": ..., "step": ..., "last_error": ...}]. *)
Record snapshot : Type := Snapshot {
  snap_order_id : option string;
  snap_step : string;
  snap_last_error : option string
}.

Definition status (self : OrderWorkflow) : snapshot :=
  Snapshot (order_id self) (current_step self) (_last_error self).

(** *** The substrate's side of one execution *)

(** What the durable-execution substrate feeds to one run: the outcome of
    each awaited call as the workflow sees it (after the retries of the
    activity), and the signals delivered while the workflow is suspended
    there.  During the approval wait signals come in batches (one batch per
    workflow task), each with its arrival time in milliseconds since the
    wait began. *)
Record execution : Type := Execution {
  workflow_id : string;
  receive_signals : list signal;
  receive_outcome : outcome value;
  validate_signals : list signal;
  validate_outcome : outcome value;
  approval_batches : list (Z * list signal);
  charge_signals : list signal;
  charge_outcome : outcome value;
  shipping_signals : list signal;
  shipping_outcome : outcome unit
}.

(** What a run leaves in the workflow history: every assignment to
    [current_step] with the answer of [status()] right after it, and every
    command issued to the substrate. *)
Inductive event : Type :=
| Step (snap : snapshot)
| ActivityScheduled (name : string) (arg : value)
| Waited (timeout elapsed : Z)
| ChildWorkflowStarted (name : string) (arg : value) (id task_queue : string).

Definition steps (h : list event) : list string :=
  omap (fun e => match e with Step snap => Some (snap_step snap) | _ => None end) h.

Definition scheduled (h : list event) : list string :=
  omap (fun e => match e with ActivityScheduled name _ => Some name | _ => None end) h.

Definition waits (h : list event) : list (Z * Z) :=
  omap (fun e => match e with Waited timeout elapsed => Some (timeout, elapsed) | _ => None end) h.

Definition children (h : list event) : list string :=
  omap (fun e => match e with ChildWorkflowStarted name _ _ _ => Some name | _ => None end) h.

(** Workflow code: a transformer of the instance and of the history. *)
Definition W (A : Type) : Type := OrderWorkflow * list event -> A * (OrderWorkflow * list event).

Definition wret {A} (a : A) : W A := fun st => (a, st).

Definition wbind {A B} (m : W A) (k : A -> W B) : W B :=
  fun st => let (a, st') := m st in k a st'.

Declare Scope workflow_scope.
Delimit Scope workflow_scope with wf.
Notation "x <- m ;; k" := (wbind m (fun x => k)) : workflow_scope.
Notation "m ;; k" := (wbind m (fun _ => k)) : workflow_scope.

Definition self : W OrderWorkflow := fun st => (fst st, st).

Definition set_order_id (o : string) : W unit :=
  fun '(s, h) =>
    (tt, (Instance (Some o) (current_step s) (_approved s) (_cancelled s)
                   (_last_error s) (_address s), h)).

Definition set_current_step (label : string) : W unit :=
  fun '(s, h) =>
    let s' := Instance (order_id s) label (_approved s) (_cancelled s)
                       (_last_error s) (_address s) in
    (tt, (s', h ++ [Step (status s')])).

Definition set_last_error (e : option string) : W unit :=
  fun '(s, h) =>
    (tt, (Instance (order_id s) (current_step s) (_approved s) (_cancelled s)
                   e (_address s), h)).

(** [await workflow.execute_activity(name, arg, ...)]: the activity is
    scheduled, the workflow is suspended, the signals that arrive meanwhile
    are handled, and the workflow resumes with the outcome. *)
Definition execute_activity (name : string) (arg : value)
    (sigs : list signal) (res : outcome value) : W (outcome value) :=
  fun '(s, h) => (res, (deliver sigs s, h ++ [ActivityScheduled name arg])).

(** [await workflow.start_child_workflow(name, arg, id=..., task_queue=...)] *)
Definition start_child_workflow (name : string) (arg : value) (id task_queue : string)
    (sigs : list signal) (res : outcome unit) : W (outcome unit) :=
  fun '(s, h) => (res, (deliver sigs s, h ++ [ChildWorkflowStarted name arg id task_queue])).

Inductive wait_result : Type := ConditionMet | TimeoutError.

(** The suspension of [workflow.wait_condition(fn, timeout=...)] once [fn]
    was found false: batches that arrive before the timer are handled one at
    a time and [fn] is evaluated after each; a batch that arrives with the
    timer is handled before the workflow resumes; later ones are not seen.
    Returns the instance, the time waited and how the wait ended. *)
Fixpoint suspend (fn : OrderWorkflow -> bool) (timeout : Z)
    (batches : list (Z * list signal)) (s : OrderWorkflow) : OrderWorkflow * Z * wait_result :=
  match batches with
  | [] => (s, timeout, TimeoutError)
  | (t, sigs) :: rest =>
      if (t <? timeout)%Z then
        let s' := deliver sigs s in
        if fn s' then (s', t, ConditionMet) else suspend fn timeout rest s'
      else if (t =? timeout)%Z then (deliver sigs s, timeout, TimeoutError)
      else (s, timeout, TimeoutError)
  end.

Definition wait_condition (fn : OrderWorkflow -> bool) (timeout : Z)
    (batches : list (Z * list signal)) : W wait_result :=
  fun '(s, h) =>
    if fn s then (ConditionMet, (s, h ++ [Waited timeout 0]))
    else
      let '(s', elapsed, r) := suspend fn timeout batches s in
      (r, (s', h ++ [Waited timeout elapsed])).

Local Open Scope workflow_scope.

(** Lines 46-50.  The timeout of [wait_condition] is the [TimeoutError] that
    the handler names ([asyncio.TimeoutError] is the builtin one from
    Python 3.11 on); either way the method returns [None]. *)
Definition _wait_for_approval_or_cancel (timeout : Z) (batches : list (Z * list signal)) : W unit :=
  r <- wait_condition (fun s => _approved s || _cancelled s) timeout batches ;;
  match r with
  | ConditionMet => wret tt
  | TimeoutError => wret tt
  end.

(** [{"order_id": order_id, "items": []}] *)
Definition default_order (order_id : string) : value :=
  VDict [("order_id", VStr order_id); ("items", VList [])].

(** [OrderWorkflow.run], lines 54-93: up to the moment the approval wait
    resolves.  Yields the order and [valid]. *)
Definition run_to_gate (order_id : string) (ex : execution) : W (value * bool) :=
  set_order_id order_id ;;
  set_current_step "RECEIVING_ORDER" ;;
  received <- execute_activity RECV_ACT (VStr order_id)
                (receive_signals ex) (receive_outcome ex) ;;
  order <- match received with
           | Returned order => wret order
           | Raised exc =>
               set_last_error
                 (Some (if _is_timeout_exception exc
                        then "Activity task timed out during RECEIVE"
                        else "Receive error: " +:+ exc)) ;;
               wret (default_order order_id)
           end ;;
  set_current_step "VALIDATING_ORDER" ;;
  validated <- execute_activity VALIDATE_ACT order
                 (validate_signals ex) (validate_outcome ex) ;;
  valid <- match validated with
           | Returned valid => wret (truthy valid)
           | Raised exc =>
               set_last_error
                 (Some (if _is_timeout_exception exc
                        then "Activity task timed out during VALIDATION"
                        else "Validation error: " +:+ exc)) ;;
               wret false
           end ;;
  set_current_step "WAITING_FOR_APPROVAL" ;;
  _wait_for_approval_or_cancel MANUAL_REVIEW_WINDOW (approval_batches ex) ;;
  wret (order, valid).

(** [OrderWorkflow.run], lines 95-147: from the resolved wait to the result. *)
Definition run_from_gate (order_id payment_id : string) (ex : execution)
    (order : value) (valid : bool) : W value :=
  s <- self ;;
  if _cancelled s then
    set_current_step "CANCELLED" ;;
    wret (VDict [("status", VStr "cancelled"); ("order_id", VStr order_id)])
  else if negb (_approved s) then
    let err := str_or (_last_error s) "Manual review timed out" in
    set_last_error (Some err) ;;
    set_current_step "AWAITING_APPROVAL_TIMEOUT" ;;
    wret (VDict [("status", VStr "manual_review_timeout"); ("order_id", VStr order_id);
                 ("error", VStr err)])
  else if negb valid then
    set_current_step "VALIDATION_FAILED" ;;
    let err := str_or (_last_error s) "Order validation failed" in
    set_last_error (Some err) ;;
    wret (VDict [("status", VStr "validation_failed"); ("order_id", VStr order_id);
                 ("error", VStr err)])
  else
    set_current_step "CHARGING_PAYMENT" ;;
    charged <- execute_activity CHARGE_ACT
                 (VDict [("order", order); ("payment_id", VStr payment_id)])
                 (charge_signals ex) (charge_outcome ex) ;;
    match charged with
    | Raised exc =>
        let err := if _is_timeout_exception exc
                   then "Activity task timed out during CHARGE"
                   else "Charge error: " +:+ exc in
        set_last_error (Some err) ;;
        set_current_step "CHARGE_FAILED" ;;
        wret (VDict [("status", VStr "payment_failed"); ("order_id", VStr order_id);
                     ("error", VStr err)])
    | Returned payment_result =>
        set_current_step "STARTING_SHIPPING" ;;
        let wid := workflow_id ex in
        started <- start_child_workflow "ShippingWorkflow"
                     (VDict [("order", order); ("parent_workflow_id", VStr wid)])
                     (wid +:+ "-shipping") "shipping-tq"
                     (shipping_signals ex) (shipping_outcome ex) ;;
        match started with
        | Raised exc =>
            let err := "Failed to start shipping child workflow: " +:+ exc in
            set_last_error (Some err) ;;
            set_current_step "SHIPPING_START_FAILED" ;;
            wret (VDict [("status", VStr "shipping_start_failed");
                         ("order_id", VStr order_id); ("error", VStr err)])
        | Returned _ =>
            set_current_step "COMPLETED" ;;
            set_last_error None ;;
            wret (VDict [("status", VStr "success"); ("order_id", VStr order_id);
                         ("payment", payment_result)])
        end
    end.

(** [OrderWorkflow.run].  Every await of the body sits in a handler of its
    own, so nothing reaches the outer handler of lines 149-154 and the run
    always returns its result dict. *)
Definition run (order_id payment_id : string) (ex : execution) : W value :=
  gate <- run_to_gate order_id ex ;;
  run_from_gate order_id payment_id ex (fst gate) (snd gate).

(** A whole execution, from a fresh instance: the result, the instance as it
    is left, and the history. *)
Definition execute (order_id payment_id : string) (ex : execution)
    : value * (OrderWorkflow * list event) :=
  run order_id payment_id ex (init, []).

Definition result_of (r : value * (OrderWorkflow * list event)) : value := fst r.
Definition final (r : value * (OrderWorkflow * list event)) : OrderWorkflow := fst (snd r).
Definition history (r : value * (OrderWorkflow * list event)) : list event := snd (snd r).

(** The instance and [valid] at the moment the approval wait resolves. *)
Definition at_gate (order_id : string) (ex : execution) : OrderWorkflow :=
  fst (snd (run_to_gate order_id ex (init, []))).

Definition valid_at_gate (order_id : string) (ex : execution) : bool :=
  snd (fst (run_to_gate order_id ex (init, []))).

(** The steps after which [run] has returned. *)
Definition terminal_steps : list string :=
  ["CANCELLED"; "AWAITING_APPROVAL_TIMEOUT"; "VALIDATION_FAILED"; "CHARGE_FAILED";
   "SHIPPING_START_FAILED"; "COMPLETED"; "FAILED"].

End workflows.

(** ** Concrete executions *)

Module examples.
Import activities workflows.

Definition order_O1 : value :=
  VDict [("order_id", VStr "O1"); ("items", VList [VDict [("sku", VStr "ABC"); ("qty", VNum 1)]])].

Definition charged_4250 : value :=
  VDict [("status", VStr "charged"); ("amount", VNum (85 # 2))].

(** Scenario 1: everything succeeds and [Approve] arrives after one second. *)
Definition ex_happy : execution :=
  Execution "O1" [] (Returned order_O1) [] (Returned (VBool true))
    [(1000%Z, [SigApprove])] [] (Returned charged_4250) [] (Returned tt).

(** [Approve] and [CancelOrder] arrive in the same workflow task. *)
Definition ex_race : execution :=
  Execution "O1" [] (Returned order_O1) [] (Returned (VBool true))
    [(1000%Z, [SigApprove; SigCancelOrder "changed my mind"])]
    [] (Returned charged_4250) [] (Returned tt).

(** Scenario 4: no signal at all. *)
Definition ex_silent : execution :=
  Execution "O1" [] (Returned order_O1) [] (Returned (VBool true))
    [] [] (Returned charged_4250) [] (Returned tt).

(** The order is invalid and is approved all the same. *)
Definition ex_invalid : execution :=
  Execution "O1" [] (Returned order_O1) [] (Returned (VBool false))
    [(1000%Z, [SigApprove])] [] (Returned charged_4250) [] (Returned tt).

(** The receive invocation fails for good; the rest succeeds. *)
Definition ex_receive_fault : execution :=
  Execution "O1" [] (Raised "connection reset") [] (Returned (VBool true))
    [(1000%Z, [SigApprove])] [] (Returned charged_4250) [] (Returned tt).

(** The validate invocation times out for good. *)
Definition ex_validate_fault : execution :=
  Execution "O1" [] (Returned order_O1) [] (Raised "activity StartToClose timeout")
    [(1000%Z, [SigApprove])] [] (Returned charged_4250) [] (Returned tt).

(** A store that never fails. *)
Definition sound_store : nat -> option string := fun _ => None.

Definition quote (s : string) : string := "'" +:+ s +:+ "'".

(** A gateway that charges 42.50. *)
Definition paying : collaborators :=
  Collaborators sound_store (fun _ _ _ => Returned charged_4250) quote (fun _ => None).

(** A gateway that declines every card. *)
Definition declining : collaborators :=
  Collaborators sound_store (fun _ _ _ => Raised "card declined") quote (fun _ => None).

(** A store whose first call fails, with a gateway that would pay. *)
Definition unreachable_store : collaborators :=
  Collaborators (fun n => if Nat.eqb n 0 then Some "connection refused" else None)
    (fun _ _ _ => Returned charged_4250) quote (fun _ => None).

Definition empty_world : world := World (Database ∅ ∅ []) 0 [].

Definition payload_O1_P1 : option charge_payload :=
  Some (ChargePayload (Some (Order (Some "O1") [("items", VList [])])) (Some "P1")).

(** The payload lacks its order. *)
Definition payload_no_order : option charge_payload :=
  Some (ChargePayload None (Some "P1")).

(** Scenario 2, first half: a first charge that succeeds. *)
Definition first_charge : outcome value * world :=
  charge_payment_activity paying payload_O1_P1 empty_world.

(** The charge activity run against the declining gateway, and the execution
    in which the workflow receives what it returned. *)
Definition declined_charge : outcome value * world :=
  charge_payment_activity declining payload_O1_P1 empty_world.

Definition ex_declined : execution :=
  Execution "O1" [] (Returned order_O1) [] (Returned (VBool true))
    [(1000%Z, [SigApprove])] [] (fst declined_charge) [] (Returned tt).

End examples.

(** ** [src/app/activities.py]: the other activities *)

Module order_activities.

(** The functions of [function_stubs] that the other activities call. *)
Record function_stubs : Type := FunctionStubs {
  order_received : string -> outcome value;
  order_validated : value -> outcome value;
  order_shipped : value -> outcome value;
  package_prepared : value -> outcome value;
  carrier_dispatched : value -> outcome value
}.

(** An order dict whose ["order_id"] entry is a string.  The activities
    below hand [order.get("order_id")] to the store as a key; what the store
    does with a NULL key depends on the schema, which is not part of the
    sources, so they are modelled on orders that carry their id. *)
Record known_order : Type := KnownOrder {
  known_id : string;
  known_entries : list (string * value)
}.

Definition known_value (o : known_order) : value :=
  VDict (("order_id", VStr (known_id o)) :: known_entries o).

Section with_collaborators.
Context (ext : collaborators) (stubs : function_stubs).
Local Open Scope activity_scope.

Definition receive_order_activity (order_id : string) : M value :=
  try_except
    (result <- lift (order_received stubs order_id) ;;
     utils.upsert_order ext order_id "RECEIVED" ;;
     utils.insert_event ext order_id "ORDER_RECEIVED" result ;;
     ret result)
    (fun err =>
       try_except
         (utils.upsert_order ext order_id "RECEIVE_ERROR" ;;
          utils.insert_event ext order_id "ORDER_RECEIVE_FAILED" (VDict [("error", VStr err)]))
         (fun _ => ret tt) ;;
       ret (VDict [("order_id", VStr order_id); ("status", VStr "receive_failed");
                   ("error", VStr err)])).

Definition validate_order_activity (o : known_order) : M value :=
  let order_id := known_id o in
  try_except
    (valid <- lift (order_validated stubs (known_value o)) ;;
     utils.update_order_status ext order_id (if truthy valid then "VALIDATED" else "INVALID") ;;
     utils.insert_event ext order_id "ORDER_VALIDATED" (VDict [("valid", valid)]) ;;
     ret (VBool (truthy valid)))
    (fun err =>
       try_except
         (utils.update_order_status ext order_id "VALIDATION_ERROR" ;;
          utils.insert_event ext order_id "ORDER_VALIDATION_FAILED" (VDict [("error", VStr err)]))
         (fun _ => ret tt) ;;
       ret (VBool false)).

Definition ship_order_activity (o : known_order) : M value :=
  let order_id := known_id o in
  try_except
    (result <- lift (order_shipped stubs (known_value o)) ;;
     utils.update_order_status ext order_id "SHIPPED" ;;
     utils.insert_event ext order_id "ORDER_SHIPPED" (VDict [("result", result)]) ;;
     ret result)
    (fun err =>
       try_except
         (utils.update_order_status ext order_id "SHIP_ERROR" ;;
          utils.insert_event ext order_id "ORDER_SHIP_FAILED" (VDict [("error", VStr err)]))
         (fun _ => ret tt) ;;
       ret (VDict [("status", VStr "ship_failed"); ("order_id", VStr order_id);
                   ("error", VStr err)])).

Definition prepare_package_activity (o : known_order) : M value :=
  let order_id := known_id o in
  try_except
    (result <- lift (package_prepared stubs (known_value o)) ;;
     utils.insert_event ext order_id "PACKAGE_PREPARED" (VDict [("result", result)]) ;;
     ret result)
    (fun err =>
       try_except
         (utils.insert_event ext order_id "PACKAGE_PREPARE_FAILED" (VDict [("error", VStr err)]))
         (fun _ => ret tt) ;;
       ret (VDict [("status", VStr "prepare_failed"); ("order_id", VStr order_id);
                   ("error", VStr err)])).

Definition dispatch_carrier_activity (o : known_order) : M value :=
  let order_id := known_id o in
  try_except
    (result <- lift (carrier_dispatched stubs (known_value o)) ;;
     utils.insert_event ext order_id "CARRIER_DISPATCHED" (VDict [("result", result)]) ;;
     ret result)
    (fun err =>
       try_except
         (utils.insert_event ext order_id "CARRIER_DISPATCH_FAILED" (VDict [("error", VStr err)]))
         (fun _ => ret tt) ;;
       ret (VDict [("status", VStr "dispatch_failed"); ("order_id", VStr order_id);
                   ("error", VStr err)])).

End with_collaborators.
End order_activities.

(** ** [src/app/workflows.py]: ShippingWorkflow *)

Module shipping.

Definition PREPARE_ACT : string := "prepare_package_activity".
Definition DISPATCH_ACT : string := "dispatch_carrier_activity".

(** The substrate's side of one child run: the outcome of the two activity
    invocations and of a signal to the parent, were one sent. *)
Record child_execution : Type := ChildExecution {
  prepare_outcome : outcome value;
  dispatch_outcome : outcome value;
  parent_signal_outcome : outcome unit
}.

(** The commands a child run issues. *)
Inductive child_event : Type :=
| ChildActivity (name : string) (arg : value)
| ExternalSignal (workflow_id : value) (run_id signal_name arg : string).

(** What a child run leaves: its result or the exception it raises, the
    [_last_error] attribute (unset unless the run failed) and the commands. *)
Record child_run : Type := ChildRun {
  child_result : outcome string;
  child_last_error : option string;
  child_history : list child_event
}.

(** [x or {}] *)
Definition or_empty (v : value) : value := if truthy v then v else VDict [].

(** The names that [workflows.py] looks up in the module [temporalio.workflow]
    and that the module defines: every one it uses but
    [signal_external_workflow].  The Python SDK signals another workflow
    through the handle of [get_external_workflow_handle]. *)
Definition workflow_module : list string :=
  ["defn"; "run"; "signal"; "query"; "execute_activity"; "wait_condition";
   "start_child_workflow"; "info"; "logger"; "ParentClosePolicy";
   "get_external_workflow_handle"].

(** [workflow.<name>]: an [AttributeError] for a name the module lacks. *)
Definition workflow_attr (name : string) : outcome unit :=
  if existsb (String.eqb name) workflow_module then Returned tt
  else Raised ("module 'temporalio.workflow' has no attribute '" +:+ name +:+ "'").

(** Lines 201-210: the handler of the body.  The log line evaluates
    [order.get('order_id')], which raises when [order] is not a dict.  Line
    207 first evaluates [workflow.signal_external_workflow]; an exception of
    that line, the one of the lookup included, is swallowed; the original
    exception is raised again. *)
Definition on_failure (order parent_workflow_id : value) (exc : string)
    (cx : child_execution) (h : list child_event) : child_run :=
  let reason := exc in
  match get order "order_id" VNone with
  | Raised attribute_error => ChildRun (Raised attribute_error) (Some reason) h
  | Returned _ =>
      if truthy parent_workflow_id then
        match workflow_attr "signal_external_workflow" with
        | Raised _ => ChildRun (Raised exc) (Some reason) h
        | Returned _ =>
            let h' := h ++ [ExternalSignal parent_workflow_id "" "DispatchFailed" reason] in
            match parent_signal_outcome cx with
            | Returned _ => ChildRun (Raised exc) (Some reason) h'
            | Raised _ => ChildRun (Raised exc) (Some reason) h'
            end
        end
      else ChildRun (Raised exc) (Some reason) h
  end.

(** [ShippingWorkflow.run] *)
Definition run (payload : value) (cx : child_execution) : child_run :=
  match get (or_empty payload) "order" VNone with
  | Raised attribute_error => ChildRun (Raised attribute_error) None []
  | Returned order_entry =>
      let order := or_empty order_entry in
      match get (or_empty payload) "parent_workflow_id" VNone with
      | Raised attribute_error => ChildRun (Raised attribute_error) None []
      | Returned parent_workflow_id =>
          let h1 := [ChildActivity PREPARE_ACT order] in
          match prepare_outcome cx with
          | Raised exc => on_failure order parent_workflow_id exc cx h1
          | Returned _ =>
              let h2 := h1 ++ [ChildActivity DISPATCH_ACT order] in
              match dispatch_outcome cx with
              | Raised exc => on_failure order parent_workflow_id exc cx h2
              | Returned _ => ChildRun (Returned "dispatched") None h2
              end
          end
      end
  end.

(** The signals a run sent, as (workflow id, signal name, argument). *)
Definition signals_sent (h : list child_event) : list (value * string * string) :=
  omap (fun e => match e with
                 | ExternalSignal wid _ name arg => Some (wid, name, arg)
                 | _ => None
                 end) h.

Definition activities_scheduled (h : list child_event) : list string :=
  omap (fun e => match e with ChildActivity name _ => Some name | _ => None end) h.

End shipping.

(** ** Views of an execution *)

Module views.
Import workflows.

(** The execution [ex] with other signals delivered once the approval wait
    has resolved: during the charge and during the start of the child. *)
Definition with_late_signals (ex : execution) (during_charge during_start : list signal)
    : execution :=
  Execution (workflow_id ex) (receive_signals ex) (receive_outcome ex)
    (validate_signals ex) (validate_outcome ex) (approval_batches ex)
    during_charge (charge_outcome ex) during_start (shipping_outcome ex).

(** The order the run works on once the receive step is over: what the
    receive invocation returned, or the default order when it raised. *)
Definition received_order (order_id : string) (ex : execution) : value :=
  match receive_outcome ex with
  | Returned order => order
  | Raised _ => default_order order_id
  end.

(** The arguments of the charge invocations a history records. *)
Definition charge_args (h : list event) : list value :=
  omap (fun e => match e with
                 | ActivityScheduled name arg =>
                     if String.eqb name CHARGE_ACT then Some arg else None
                 | _ => None
                 end) h.

(** The child starts a history records. *)
Definition child_starts (h : list event) : list (string * value * string * string) :=
  omap (fun e => match e with
                 | ChildWorkflowStarted name arg id task_queue =>
                     Some (name, arg, id, task_queue)
                 | _ => None
                 end) h.

(** Whether the run goes past the approval gate to the charge. *)
Definition passes_gate (order_id : string) (ex : execution) : bool :=
  negb (_cancelled (at_gate order_id ex)) && _approved (at_gate order_id ex)
  && valid_at_gate order_id ex.

Definition returned {A} (r : outcome A) : bool :=
  match r with Returned _ => true | Raised _ => false end.

Definition is_dict (v : value) : bool :=
  match v with VDict _ => true | _ => false end.

(** The last step a history records. *)
Definition last_step (h : list event) : option string := last (steps h).

(** How each terminal step shows in the result. *)
Definition endings : list (string * string) :=
  [("CANCELLED", "cancelled");
   ("AWAITING_APPROVAL_TIMEOUT", "manual_review_timeout");
   ("VALIDATION_FAILED", "validation_failed");
   ("CHARGE_FAILED", "payment_failed");
   ("SHIPPING_START_FAILED", "shipping_start_failed");
   ("COMPLETED", "success")].

End views.

(** ** What the store keeps *)

Module invariants.

(** [w'] comes after [w]: the event log, the gateway log and the count of
    store calls have only grown, every order is still there, and every
    ledger row is still there under the order it was reserved for. *)
Definition grows (w w' : world) : Prop :=
  events (db w) `prefix_of` events (db w') /\
  gateway_calls w `prefix_of` gateway_calls w' /\
  (db_calls w <= db_calls w')%nat /\
  dom (orders (db w)) ⊆ dom (orders (db w')) /\
  (forall pid r, payments (db w) !! pid = Some r ->
     exists r', payments (db w') !! pid = Some r' /\ row_order_id r' = row_order_id r).

(** An operation after which the world has only grown. *)
Definition monotone {A} (m : M A) : Prop := forall w, grows w (snd (m w)).

(** An operation that leaves the gateway alone. *)
Definition silent {A} (m : M A) : Prop :=
  forall w, gateway_calls (snd (m w)) = gateway_calls w.

(** An operation that cannot raise. *)
Definition total {A} (m : M A) : Prop := forall w, exists a, fst (m w) = Returned a.

(** [m] done [n] times in a row. *)
Fixpoint times (n : nat) (m : M unit) : M unit :=
  match n with
  | O => ret tt
  | S n' => bind m (fun _ => times n' m)
  end.

End invariants.

(** ** More concrete inputs *)

Module more_examples.
Import activities order_activities workflows shipping.

Definition bare_order_O1 : order := Order (Some "O1") [("items", VList [])].

Definition known_O1 : known_order := KnownOrder "O1" [("items", VList [])].

(** A store that loses its tenth call, with a gateway that charges 42.50. *)
Definition audit_refused : collaborators :=
  Collaborators (fun n => if Nat.eqb n 9 then Some "connection lost" else None)
    (fun _ _ _ => Returned examples.charged_4250) examples.quote (fun _ => None).

(** Stubs that all succeed. *)
Definition stubs_fine : function_stubs :=
  FunctionStubs
    (fun order_id => Returned (VDict [("order_id", VStr order_id); ("items", VList [])]))
    (fun _ => Returned (VBool true))
    (fun _ => Returned (VStr "Shipped"))
    (fun _ => Returned (VStr "Package ready"))
    (fun _ => Returned (VStr "Dispatched")).

(** Stubs that all fail. *)
Definition stubs_down : function_stubs :=
  FunctionStubs
    (fun _ => Raised "service unavailable")
    (fun _ => Raised "service unavailable")
    (fun _ => Raised "service unavailable")
    (fun _ => Raised "service unavailable")
    (fun _ => Raised "service unavailable").

(** The charge invocation times out for good. *)
Definition ex_charge_fault : execution :=
  Execution "O1" [] (Returned examples.order_O1) [] (Returned (VBool true))
    [(1000%Z, [SigApprove])] [] (Raised "activity StartToClose timeout") [] (Returned tt).

(** The child cannot be started. *)
Definition ex_child_fault : execution :=
  Execution "O1" [] (Returned examples.order_O1) [] (Returned (VBool true))
    [(1000%Z, [SigApprove])] [] (Returned examples.charged_4250)
    [] (Raised "task queue not found").

(** Scenario 3, earlier still: CancelOrder arrives while the order is
    received, Approve during the wait. *)
Definition ex_early_cancel : execution :=
  Execution "O1" [SigCancelOrder "wrong address"] (Returned examples.order_O1)
    [] (Returned (VBool true)) [(1000%Z, [SigApprove])]
    [] (Returned examples.charged_4250) [] (Returned tt).

(** A store that loses its twentieth call, the read of the ledger in a
    second invocation, with a gateway that charges 42.50. *)
Definition read_lost : collaborators :=
  Collaborators (fun n => if Nat.eqb n 19 then Some "connection reset" else None)
    (fun _ _ _ => Returned examples.charged_4250) examples.quote (fun _ => None).

(** A first charge against that store. *)
Definition charged_once : outcome value * world :=
  charge_payment_activity read_lost examples.payload_O1_P1 examples.empty_world.

(** A gateway that reports the amount 2 ^ 53 + 1, which is not a double. *)
Definition charged_odd : value :=
  VDict [("status", VStr "charged"); ("amount", VNum (inject_Z (2 ^ 53 + 1)))].

Definition paying_odd : collaborators :=
  Collaborators examples.sound_store (fun _ _ _ => Returned charged_odd) examples.quote
    (fun _ => None).



(** The payload the parent "O1" hands to its child. *)
Definition child_payload : list (string * value) :=
  [("order", examples.order_O1); ("parent_workflow_id", VStr "O1")].

(** Scenario 5: the dispatch invocation raises and the parent is gone. *)
Definition cx_dispatch_fault : child_execution :=
  ChildExecution (Returned (VStr "Package ready")) (Raised "carrier dispatch failed for O1")
    (Raised "workflow execution already completed").

End more_examples.

(** * Properties *)

(** ** The charge activity *)

Module activities_spec.
Import activities.

Section with_collaborators.
Context (ext : collaborators).
Local Open Scope activity_scope.

(** *** The store *)

Lemma store_sound_weaken w k k' : (k' <= k)%nat -> store_sound ext w k -> store_sound ext w k'.
Proof. intros Hle H i Hi. apply H. lia. Qed.

(** A write on a sound store applies its statement and returns. *)
Lemma write_sound st w :
  store_sound ext w 3 ->
  utils.write ext st w =
    (Returned tt, World (execute_statement st (db w)) (db_calls w + 3) (gateway_calls w)).
Proof.
  intros H.
  pose proof (H 0%nat ltac:(lia)) as H0. pose proof (H 1%nat ltac:(lia)) as H1.
  pose proof (H 2%nat ltac:(lia)) as H2.
  rewrite Nat.add_0_r in H0.
  unfold utils.write, utils.connect, utils.close, utils.execute, utils.store_call, bind, try_finally.
  cbn. rewrite H0. cbn. replace (S (db_calls w)) with (db_calls w + 1)%nat by lia.
  rewrite H1. cbn. replace (S (db_calls w + 1)) with (db_calls w + 2)%nat by lia.
  rewrite H2. cbn. do 2 f_equal. lia.
Qed.

(** Whatever the store does, a write applies its statement or nothing, and
    never calls the gateway. *)
Lemma write_frame st w :
  (db (snd (utils.write ext st w)) = db w \/ db (snd (utils.write ext st w)) = execute_statement st (db w)) /\
  gateway_calls (snd (utils.write ext st w)) = gateway_calls w.
Proof.
  unfold utils.write, utils.connect, utils.close, utils.execute, utils.store_call, bind, try_finally.
  cbn. destruct (db_fault ext (db_calls w)); cbn; [auto|].
  destruct (db_fault ext (S (db_calls w))); cbn;
    destruct (db_fault ext (S (S (db_calls w)))); cbn; auto.
Qed.

(** A write that returns has applied its statement. *)
Lemma write_returned st w w' :
  utils.write ext st w = (Returned tt, w') ->
  db w' = execute_statement st (db w) /\ gateway_calls w' = gateway_calls w.
Proof.
  unfold utils.write, utils.connect, utils.close, utils.execute, utils.store_call, bind,
    try_finally.
  cbn. destruct (db_fault ext (db_calls w)); cbn; [intros [=]|].
  destruct (db_fault ext (S (db_calls w))); cbn;
    destruct (db_fault ext (S (S (db_calls w)))); cbn; intros [= <-]; done.
Qed.

(** The ledger read on a sound store returns the row of the payment. *)
Lemma ensure_payment_idempotent_sound pid w :
  store_sound ext w 3 ->
  utils.ensure_payment_idempotent ext pid w =
    (Returned (payments (db w) !! pid), World (db w) (db_calls w + 3) (gateway_calls w)).
Proof.
  intros H.
  pose proof (H 0%nat ltac:(lia)) as H0. pose proof (H 1%nat ltac:(lia)) as H1.
  pose proof (H 2%nat ltac:(lia)) as H2.
  rewrite Nat.add_0_r in H0.
  unfold utils.ensure_payment_idempotent, utils.fetchrow_payment, utils.connect,
    utils.close, utils.store_call, bind, try_finally, ret.
  cbn. rewrite H0. cbn. replace (S (db_calls w)) with (db_calls w + 1)%nat by lia.
  rewrite H1. cbn. replace (S (db_calls w + 1)) with (db_calls w + 2)%nat by lia.
  destruct (payments (db w) !! pid) as [[o st a]|]; cbn; rewrite H2; cbn;
    do 2 f_equal; lia.
Qed.

(** Whatever the store does, the ledger read changes no table, calls no
    gateway, and what it returns is the row of the payment. *)
Lemma ensure_payment_idempotent_frame pid w :
  db (snd (utils.ensure_payment_idempotent ext pid w)) = db w /\
  gateway_calls (snd (utils.ensure_payment_idempotent ext pid w)) = gateway_calls w /\
  forall existing,
    fst (utils.ensure_payment_idempotent ext pid w) = Returned existing ->
    existing = payments (db w) !! pid.
Proof.
  unfold utils.ensure_payment_idempotent, utils.fetchrow_payment, utils.connect,
    utils.close, utils.store_call, bind, try_finally, ret.
  cbn. destruct (db_fault ext (db_calls w)); cbn.
  { split; [|split]; [done..|]. intros existing [=]. }
  destruct (db_fault ext (S (db_calls w))); cbn.
  - destruct (db_fault ext (S (S (db_calls w)))); cbn;
      (split; [|split]; [done..|]); intros existing [=].
  - destruct (payments (db w) !! pid) as [[o st a]|]; cbn;
      destruct (db_fault ext (S (S (db_calls w)))); cbn;
      (split; [|split]; [done..|]); intros existing H;
      inversion H; reflexivity.
Qed.

(** Reserving a payment that has a row changes nothing. *)
Lemma insert_payment_init_existing pid oid d row :
  payments d !! pid = Some row ->
  execute_statement (InsertPaymentInit pid oid) d = d.
Proof. intros H. cbn. rewrite H. reflexivity. Qed.

(** *** Identifiers *)

Lemma present_given s : s <> "" -> present (Some s) = Some s.
Proof.
  intros Hs. unfold present, missing.
  destruct (String.eqb_spec s ""); [contradiction|reflexivity].
Qed.

Lemma present_inv o s : present o = Some s -> o = Some s /\ missing o = false.
Proof. unfold present. destruct (missing o); [discriminate|]. intros ->. done. Qed.

(** *** The three ways out of the activity *)

(** The short circuit always returns, adds at most an audit event, and
    leaves the ledger and the gateway alone. *)
Lemma already_charged_spec oid pid row w :
  fst (already_charged ext oid pid row w) =
    Returned (VDict [("status", VStr "already_charged"); ("amount", VNum (row_amount row))]) /\
  payments (db (snd (already_charged ext oid pid row w))) = payments (db w) /\
  gateway_calls (snd (already_charged ext oid pid row w)) = gateway_calls w.
Proof.
  unfold already_charged, utils.insert_event, bind, try_except, ret.
  match goal with
  | |- context [utils.write ext ?st w] =>
      destruct (write_frame st w) as [Hdb Hgw];
      destruct (utils.write ext st w) as [[[]|exc] w'] eqn:E
  end; cbn in *; (split; [done|]); (split; [|done]);
    destruct Hdb as [-> | ->]; done.
Qed.

(** The rejection leaves the ledger and the gateway alone. *)
Lemma reject_missing_frame oid pid w :
  payments (db (snd (reject_missing ext oid pid w))) = payments (db w) /\
  gateway_calls (snd (reject_missing ext oid pid w)) = gateway_calls w.
Proof.
  unfold reject_missing, utils.insert_event, bind, ret.
  match goal with
  | |- context [utils.write ext ?st w] =>
      destruct (write_frame st w) as [Hdb Hgw];
      destruct (utils.write ext st w) as [[[]|exc] w'] eqn:E
  end; cbn in *; (split; [|done]); destruct Hdb as [-> | ->]; done.
Qed.

Ltac atomic x :=
  lazymatch x with
  | context [match _ with Returned _ => _ | Raised _ => _ end] => fail
  | context [let (_, _) := _ in _] => fail
  | _ => idtac
  end.

Ltac run_step :=
  match goal with
  | |- context [match ?x with Returned _ => _ | Raised _ => _ end] =>
      atomic x; destruct x
  | |- context [let (_, _) := ?x in _] =>
      atomic x; destruct x as [[?|?] ?]
  end.

Ltac structured :=
  eexists _, _; split; [reflexivity|]; split; [reflexivity|];
  rewrite !elem_of_cons; tauto.

(** The gateway path always returns, with status "charged" or "failed". *)
Lemma charge_through_gateway_returns o oid pid w :
  exists v st,
    fst (charge_through_gateway ext o oid pid w) = Returned v /\
    entry "status" v = Some (VStr st) /\
    st ∈ ["charged"; "failed"].
Proof.
  unfold charge_through_gateway, bind, try_except, ret.
  repeat (run_step; cbn); structured.
Qed.

(** An invocation that returns status "charged" went through the gateway
    path and leaves the ledger row of the payment CHARGED with the amount
    it returns. *)
Lemma charged_leaves_row (o : order) oid pid w v :
  order_id o = Some oid -> oid <> "" -> pid <> "" ->
  fst (charge_payment_activity ext (Some (ChargePayload (Some o) (Some pid))) w) = Returned v ->
  entry "status" v = Some (VStr "charged") ->
  exists row,
    payments (db (snd (charge_payment_activity ext (Some (ChargePayload (Some o) (Some pid))) w)))
      !! pid = Some row /\
    row_status row = "CHARGED" /\
    v = VDict [("status", VStr "charged"); ("amount", VNum (row_amount row))].
Proof.
  intros Ho Hoid Hpid.
  unfold charge_payment_activity. cbn. rewrite Ho.
  rewrite (present_given pid Hpid), (present_given oid Hoid).
  unfold bind, utils.insert_payment_init.
  destruct (utils.write ext (InsertPaymentInit pid oid) w) as [[[]|exc] wa] eqn:Ea;
    cbn [fst snd]; [|intros [=]].
  apply write_returned in Ea as [Hdba _].
  destruct (ensure_payment_idempotent_frame pid wa) as (Hdbb & _ & Hex).
  destruct (utils.ensure_payment_idempotent ext pid wa) as [[existing|exc] wb] eqn:Eb;
    cbn [fst snd] in *; [|intros [=]].
  rewrite (Hex existing eq_refl).
  assert (Hreserved : is_Some (payments (db wb) !! pid)).
  { rewrite Hdbb, Hdba. cbn. destruct (payments (db w) !! pid) eqn:E; cbn.
    - rewrite E. eauto.
    - rewrite lookup_insert_eq. eauto. }
  assert (Hgateway :
    fst (charge_through_gateway ext o oid pid wb) = Returned v ->
    entry "status" v = Some (VStr "charged") ->
    exists row,
      payments (db (snd (charge_through_gateway ext o oid pid wb))) !! pid = Some row /\
      row_status row = "CHARGED" /\
      v = VDict [("status", VStr "charged"); ("amount", VNum (row_amount row))]).
  { clear Hex Eb. destruct Hreserved as [r0 Hr0].
    unfold charge_through_gateway, try_except, bind, utils.update_payment_charged,
      utils.insert_event, utils.update_order_status, utils.upsert_order, ret, lift,
      call_payment_charged.
    destruct (payment_charged ext _ _ pid) as [result|exc]; cbn [fst snd].
    2: { repeat (run_step; cbn [fst snd]); intros [= <-]; discriminate. }
    destruct (get result "amount" (VNum 0)) as [entry_|exc]; cbn [fst snd].
    2: { repeat (run_step; cbn [fst snd]); intros [= <-]; discriminate. }
    destruct (float ext entry_) as [amount|exc]; cbn [fst snd].
    2: { repeat (run_step; cbn [fst snd]); intros [= <-]; discriminate. }
    match goal with
    | |- context [utils.write ext (UpdatePaymentCharged pid amount) ?w1] =>
        destruct (utils.write ext (UpdatePaymentCharged pid amount) w1)
          as [[[]|exc] wc] eqn:Ec
    end; cbn [fst snd].
    2: { repeat (run_step; cbn [fst snd]); intros [= <-]; discriminate. }
    apply write_returned in Ec as [Hdbc _]. cbn in Hdbc. rewrite Hr0 in Hdbc.
    match goal with
    | |- context [utils.write ext ?st wc] =>
        destruct (utils.write ext st wc) as [[[]|exc] wd] eqn:Ed
    end; cbn [fst snd].
    2: { repeat (run_step; cbn [fst snd]); intros [= <-]; discriminate. }
    apply write_returned in Ed as [Hdbd _].
    match goal with
    | |- context [utils.write ext ?st wd] =>
        destruct (utils.write ext st wd) as [[[]|exc] we] eqn:Ee
    end; cbn [fst snd].
    2: { repeat (run_step; cbn [fst snd]); intros [= <-]; discriminate. }
    apply write_returned in Ee as [Hdbe _].
    intros [= <-] _. eexists. rewrite Hdbe, Hdbd, Hdbc. cbn.
    rewrite lookup_insert_eq. done. }
  destruct (payments (db wa) !! pid) as [row|]; [|exact Hgateway].
  destruct (String.eqb (row_status row) "CHARGED"); [|exact Hgateway].
  destruct (already_charged_spec oid pid row wb) as (-> & _ & _).
  intros [= <-]. discriminate.
Qed.

Lemma statuses_widen (st : string) :
  st ∈ ["charged"; "failed"] -> st ∈ ["charged"; "already_charged"; "failed"].
Proof. rewrite !elem_of_cons. tauto. Qed.

(** A CHARGED row fences the gateway off, whatever the store does. *)
Lemma charged_row_fences (o : order) oid pid row w :
  order_id o = Some oid -> oid <> "" -> pid <> "" ->
  payments (db w) !! pid = Some row ->
  row_status row = "CHARGED" ->
  gateway_calls (snd (charge_payment_activity ext (Some (ChargePayload (Some o) (Some pid))) w))
    = gateway_calls w /\
  payments (db (snd (charge_payment_activity ext (Some (ChargePayload (Some o) (Some pid))) w)))
    = payments (db w) /\
  (store_sound ext w 6 ->
   fst (charge_payment_activity ext (Some (ChargePayload (Some o) (Some pid))) w) =
     Returned (VDict [("status", VStr "already_charged"); ("amount", VNum (row_amount row))])).
Proof.
  intros Ho Hoid Hpid Hrow Hst.
  unfold charge_payment_activity. cbn. rewrite Ho.
  rewrite (present_given pid Hpid), (present_given oid Hoid).
  unfold bind, utils.insert_payment_init.
  destruct (write_frame (InsertPaymentInit pid oid) w) as [Hdb Hgw].
  rewrite (insert_payment_init_existing pid oid (db w) row Hrow) in Hdb.
  assert (Hdb' : db (snd (utils.write ext (InsertPaymentInit pid oid) w)) = db w)
    by (destruct Hdb; done).
  clear Hdb.
  destruct (utils.write ext (InsertPaymentInit pid oid) w) as [[[]|exc] wa] eqn:Ea;
    cbn in *.
  2: { rewrite Hdb'. split; [done|]. split; [done|]. intros Hsound.
       rewrite (write_sound (InsertPaymentInit pid oid) w) in Ea
         by (eapply store_sound_weaken; [|exact Hsound]; lia).
       discriminate. }
  destruct (ensure_payment_idempotent_frame pid wa) as (Hdb2 & Hgw2 & Hex).
  destruct (utils.ensure_payment_idempotent ext pid wa) as [[existing|exc] wb] eqn:Eb;
    cbn in *.
  2: { rewrite Hdb2, Hdb', Hgw2. split; [done|]. split; [done|]. intros Hsound.
       rewrite (write_sound (InsertPaymentInit pid oid) w) in Ea
         by (eapply store_sound_weaken; [|exact Hsound]; lia).
       injection Ea as <-.
       rewrite ensure_payment_idempotent_sound in Eb
         by (intros i Hi; cbn; rewrite <- Nat.add_assoc; apply Hsound; lia).
       discriminate. }
  rewrite (Hex existing eq_refl), Hdb', Hrow, Hst. cbn.
  destruct (already_charged_spec oid pid row wb) as (Hret & Hpay & Hgate).
  rewrite Hpay, Hgate, Hdb2, Hdb', Hgw2. done.
Qed.

(** The reservation and the read of the ledger are awaited outside any
    [try]: what they raise, the invocation raises. *)
Lemma early_fault_is_raised payload pid oid exc w :
  present (payload ≫= payload_payment_id) = Some pid ->
  present (order_id (default (Order None []) (payload ≫= payload_order))) = Some oid ->
  fst ((utils.insert_payment_init ext pid oid ;;
        utils.ensure_payment_idempotent ext pid) w) = Raised exc ->
  fst (charge_payment_activity ext payload w) = Raised exc.
Proof.
  intros Epid Eoid. unfold charge_payment_activity.
  rewrite Epid, Eoid. unfold bind.
  destruct (utils.insert_payment_init ext pid oid w) as [[[]|e1] wa]; cbn [fst snd];
    [|intros [= ->]; reflexivity].
  destruct (utils.ensure_payment_idempotent ext pid wa) as [[existing|e2] wb];
    cbn [fst snd]; [intros [=]|intros [= ->]; reflexivity].
Qed.

(** A write raises as soon as one of its three store calls does. *)
Lemma write_faulty st w i exc :
  (i < 3)%nat -> db_fault ext (db_calls w + i) = Some exc ->
  exists exc', fst (utils.write ext st w) = Raised exc'.
Proof.
  intros Hi Hfault.
  unfold utils.write, utils.connect, utils.close, utils.execute, utils.store_call,
    try_finally, bind.
  destruct (db_fault ext (db_calls w)) as [e0|] eqn:E0; cbn; [eauto|].
  destruct (db_fault ext (S (db_calls w))) as [e1|] eqn:E1; cbn.
  - destruct (db_fault ext (S (S (db_calls w)))); cbn; eauto.
  - destruct (db_fault ext (S (S (db_calls w)))) as [e2|] eqn:E2; cbn; [eauto|].
    exfalso. destruct i as [|[|[|i]]]; [| | |lia].
    + rewrite Nat.add_0_r in Hfault. congruence.
    + rewrite Nat.add_1_r in Hfault. congruence.
    + replace (db_calls w + 2)%nat with (S (S (db_calls w))) in Hfault by lia. congruence.
Qed.

(** *** The properties of the activity *)

(** C2, amended. When the ledger row of the payment is CHARGED (as a first
    invocation that charged leaves it), an invocation for the same order and
    payment makes no gateway call and leaves the payments table, and so the
    status and amount of the row, as they are, whatever the store does.
    When the store answers the reservation and the read, it returns status
    "already_charged" with the amount of the row; an exception of the
    reservation or of the read is not handled: the invocation raises it
    instead of returning a result. *)
Theorem charge_idempotent (o : order) oid pid row w :
  order_id o = Some oid -> oid <> "" -> pid <> "" ->
  payments (db w) !! pid = Some row ->
  row_status row = "CHARGED" ->
  gateway_calls (snd (charge_payment_activity ext (Some (ChargePayload (Some o) (Some pid))) w))
    = gateway_calls w /\
  payments (db (snd (charge_payment_activity ext (Some (ChargePayload (Some o) (Some pid))) w)))
    = payments (db w) /\
  (store_sound ext w 6 ->
   fst (charge_payment_activity ext (Some (ChargePayload (Some o) (Some pid))) w) =
     Returned (VDict [("status", VStr "already_charged"); ("amount", VNum (row_amount row))])) /\
  (forall exc,
     fst ((utils.insert_payment_init ext pid oid ;;
           utils.ensure_payment_idempotent ext pid) w) = Raised exc ->
     fst (charge_payment_activity ext (Some (ChargePayload (Some o) (Some pid))) w) = Raised exc).
Proof.
  intros Ho Hoid Hpid Hrow Hst.
  destruct (charged_row_fences o oid pid row w Ho Hoid Hpid Hrow Hst) as (Hgw & Hpay & Hret).
  split; [exact Hgw|]. split; [exact Hpay|]. split; [exact Hret|].
  intros exc. apply early_fault_is_raised; cbn; rewrite ?Ho; by apply present_given.
Qed.

(** C8, amended. When the payment id or the order id is missing from the
    payload (absent, None or empty), the invocation makes no gateway call
    and leaves the payments table as it is, whatever the store does.  When
    the store answers the audit insert, it returns a result of status
    "failed" and the events table has gained exactly one PAYMENT_FAILED
    event; when one of the three store calls of the audit insert raises, the
    invocation raises instead of returning a result. *)
Theorem missing_identifiers_rejected payload w :
  missing (payload ≫= payload_payment_id) = true \/
  missing (order_id (default (Order None []) (payload ≫= payload_order))) = true ->
  payments (db (snd (charge_payment_activity ext payload w))) = payments (db w) /\
  gateway_calls (snd (charge_payment_activity ext payload w)) = gateway_calls w /\
  (store_sound ext w 3 ->
   exists err,
     fst (charge_payment_activity ext payload w) =
       Returned (VDict [("status", VStr "failed");
                        ("payment_id", of_opt (payload ≫= payload_payment_id));
                        ("error", VStr err)]) /\
     events (db (snd (charge_payment_activity ext payload w))) =
       events (db w) ++
       [EventRow
          (str_or (order_id (default (Order None []) (payload ≫= payload_order))) "unknown")
          "PAYMENT_FAILED"
          (VDict [("payment_id", of_opt (payload ≫= payload_payment_id));
                  ("error", VStr err)])]) /\
  (forall i exc,
     (i < 3)%nat -> db_fault ext (db_calls w + i) = Some exc ->
     exists exc', fst (charge_payment_activity ext payload w) = Raised exc').
Proof.
  intros Hmissing.
  assert (Hreject :
    charge_payment_activity ext payload w =
    reject_missing ext (order_id (default (Order None []) (payload ≫= payload_order)))
      (payload ≫= payload_payment_id) w).
  { unfold charge_payment_activity.
    destruct (present (payload ≫= payload_payment_id)) as [pid|] eqn:Epid; [|reflexivity].
    destruct (present (order_id (default (Order None []) (payload ≫= payload_order))))
      as [oid|] eqn:Eoid; [|reflexivity].
    apply present_inv in Epid as [_ Epid]. apply present_inv in Eoid as [_ Eoid].
    destruct Hmissing; congruence. }
  rewrite Hreject. destruct (reject_missing_frame
    (order_id (default (Order None []) (payload ≫= payload_order)))
    (payload ≫= payload_payment_id) w) as [Hpay Hgw].
  split; [exact Hpay|]. split; [exact Hgw|]. split.
  - intros Hsound.
    unfold reject_missing, utils.insert_event, bind, ret.
    rewrite write_sound by exact Hsound. cbn.
    eexists. split; reflexivity.
  - intros i exc Hi Hfault.
    unfold reject_missing, utils.insert_event, bind, ret. cbv zeta.
    match goal with
    | |- context [utils.write ext ?st w] =>
        destruct (write_faulty st w i exc Hi Hfault) as [exc' Hraised];
        destruct (utils.write ext st w) as [[[]|e] w']
    end; cbn [fst] in *; [discriminate|eauto].
Qed.

(** C9, amended. When the store answers the first six store calls of an
    invocation (the reservation and the read of the ledger; or, with an
    identifier missing, the three of the audit insert), the activity returns
    a result of status "charged", "already_charged" or "failed", whatever
    the gateway does and whatever becomes of the later ledger, audit and
    order writes.  An exception of the reservation or of the ledger read is
    not handled: the invocation raises it. *)
Theorem charge_returns_structured payload w :
  (store_sound ext w 6 ->
   exists v st,
     fst (charge_payment_activity ext payload w) = Returned v /\
     entry "status" v = Some (VStr st) /\
     st ∈ ["charged"; "already_charged"; "failed"]) /\
  (forall pid oid exc,
     present (payload ≫= payload_payment_id) = Some pid ->
     present (order_id (default (Order None []) (payload ≫= payload_order))) = Some oid ->
     fst ((utils.insert_payment_init ext pid oid ;;
           utils.ensure_payment_idempotent ext pid) w) = Raised exc ->
     fst (charge_payment_activity ext payload w) = Raised exc).
Proof.
  split.
  - intros Hsound. unfold charge_payment_activity.
    destruct (present (payload ≫= payload_payment_id)) as [pid|] eqn:Epid.
    destruct (present (order_id (default (Order None []) (payload ≫= payload_order))))
      as [oid|] eqn:Eoid.
    + unfold bind, utils.insert_payment_init.
      rewrite write_sound by (eapply store_sound_weaken; [|exact Hsound]; lia).
      rewrite ensure_payment_idempotent_sound
        by (intros i Hi; cbn; rewrite <- Nat.add_assoc; apply Hsound; lia).
      cbn [db]. destruct (payments (execute_statement _ _) !! pid) as [row|];
        [destruct (String.eqb (row_status row) "CHARGED")|].
      * match goal with
        | |- context [already_charged ext oid pid row ?w'] =>
            destruct (already_charged_spec oid pid row w') as (-> & _ & _)
        end.
        structured.
      * match goal with
        | |- context [charge_through_gateway ext ?o oid pid ?w'] =>
            destruct (charge_through_gateway_returns o oid pid w') as (v & st & -> & Hst & Hin)
        end.
        exists v, st. split; [reflexivity|]. split; [exact Hst|].
        by apply statuses_widen.
      * match goal with
        | |- context [charge_through_gateway ext ?o oid pid ?w'] =>
            destruct (charge_through_gateway_returns o oid pid w') as (v & st & -> & Hst & Hin)
        end.
        exists v, st. split; [reflexivity|]. split; [exact Hst|].
        by apply statuses_widen.
    + unfold reject_missing, utils.insert_event, bind, ret.
      rewrite write_sound by (eapply store_sound_weaken; [|exact Hsound]; lia).
      structured.
    + unfold reject_missing, utils.insert_event, bind, ret.
      rewrite write_sound by (eapply store_sound_weaken; [|exact Hsound]; lia).
      structured.
  - intros pid oid exc Epid Eoid. unfold charge_payment_activity.
    rewrite Epid, Eoid. unfold bind.
    destruct (utils.insert_payment_init ext pid oid w) as [[[]|e1] wa]; cbn [fst snd];
      [|intros [= ->]; reflexivity].
    destruct (utils.ensure_payment_idempotent ext pid wa) as [[existing|e2] wb];
      cbn [fst snd]; [intros [=]|intros [= ->]; reflexivity].
Qed.

End with_collaborators.

Lemma charge_idempotent_witness :
  payments (db (snd examples.first_charge)) !! "P1" = Some (PaymentRow "O1" "CHARGED" (85 # 2)) /\
  fst (charge_payment_activity examples.paying examples.payload_O1_P1 (snd examples.first_charge)) =
    Returned (VDict [("status", VStr "already_charged"); ("amount", VNum (85 # 2))]).
Proof.
  split; [vm_compute; reflexivity|].
  apply (charge_idempotent examples.paying (Order (Some "O1") [("items", VList [])])
           "O1" "P1" (PaymentRow "O1" "CHARGED" (85 # 2)) (snd examples.first_charge)).
  - reflexivity.
  - discriminate.
  - discriminate.
  - vm_compute; reflexivity.
  - reflexivity.
  - intros i _. reflexivity.
Defined.

(** C2, as stated, fails: the first invocation charges and leaves the row
    CHARGED; the store then loses the connection of the ledger read, and the
    second invocation does not return "already_charged", it raises. *)
Lemma charge_retry_raises_on_read_fault :
  fst (charge_payment_activity more_examples.read_lost examples.payload_O1_P1
         examples.empty_world) = Returned examples.charged_4250 /\
  payments (db (snd more_examples.charged_once)) !! "P1" =
    Some (PaymentRow "O1" "CHARGED" (85 # 2)) /\
  fst (charge_payment_activity more_examples.read_lost examples.payload_O1_P1
         (snd more_examples.charged_once)) = Raised "connection reset" /\
  ~ exists v,
      fst (charge_payment_activity more_examples.read_lost examples.payload_O1_P1
             (snd more_examples.charged_once)) = Returned v.
Proof.
  split; [vm_compute; reflexivity|]. split; [vm_compute; reflexivity|].
  split; [vm_compute; reflexivity|].
  intros [v Hv]. vm_compute in Hv. discriminate.
Qed.

Lemma missing_identifiers_rejected_witness :
  missing (order_id (default (Order None []) (examples.payload_no_order ≫= payload_order))) = true /\
  store_sound examples.paying examples.empty_world 3 /\
  exists err,
    fst (charge_payment_activity examples.paying examples.payload_no_order
           examples.empty_world) =
      Returned (VDict [("status", VStr "failed"); ("payment_id", VStr "P1");
                       ("error", VStr err)]) /\
    events (db (snd (charge_payment_activity examples.paying examples.payload_no_order
                       examples.empty_world))) =
      [EventRow "unknown" "PAYMENT_FAILED"
         (VDict [("payment_id", VStr "P1"); ("error", VStr err)])].
Proof.
  split; [reflexivity|]. split; [intros i _; reflexivity|].
  destruct (missing_identifiers_rejected examples.paying examples.payload_no_order
              examples.empty_world) as (_ & _ & Hreturns & _).
  - right. reflexivity.
  - apply Hreturns. intros i _. reflexivity.
Defined.

(** C8, as stated, fails: with the order missing and a store that refuses
    the connection of the audit insert, the invocation returns no "failed"
    result and appends no event, it raises. *)
Lemma missing_identifiers_raise_on_store_fault :
  fst (charge_payment_activity examples.unreachable_store examples.payload_no_order
         examples.empty_world) = Raised "connection refused" /\
  events (db (snd (charge_payment_activity examples.unreachable_store examples.payload_no_order
                     examples.empty_world))) = [] /\
  ~ exists v,
      fst (charge_payment_activity examples.unreachable_store examples.payload_no_order
             examples.empty_world) = Returned v.
Proof.
  split; [vm_compute; reflexivity|]. split; [vm_compute; reflexivity|].
  intros [v Hv]. vm_compute in Hv. discriminate.
Qed.

Lemma charge_returns_structured_witness :
  store_sound examples.declining examples.empty_world 6 /\
  exists v st,
    fst (charge_payment_activity examples.declining examples.payload_O1_P1
           examples.empty_world) = Returned v /\
    entry "status" v = Some (VStr st) /\
    st ∈ ["charged"; "already_charged"; "failed"].
Proof.
  split; [intros i _; reflexivity|].
  apply (charge_returns_structured examples.declining examples.payload_O1_P1
           examples.empty_world).
  intros i _. reflexivity.
Defined.

(** C9, as stated, fails: with a store that refuses the first connection
    the invocation does not return a result, it raises. *)
Lemma charge_raises_on_reservation_fault :
  fst (charge_payment_activity examples.unreachable_store examples.payload_O1_P1
         examples.empty_world) = Raised "connection refused" /\
  ~ exists v,
      fst (charge_payment_activity examples.unreachable_store examples.payload_O1_P1
             examples.empty_world) = Returned v.
Proof.
  split; [vm_compute; reflexivity|].
  intros [v Hv]. vm_compute in Hv. discriminate.
Qed.

End activities_spec.

(** ** OrderWorkflow *)

Module workflows_spec.
Import workflows.

(** *** Signals *)

(** No handler assigns [order_id]. *)
Lemma handle_order_id sg s : order_id (handle sg s) = order_id s.
Proof. destruct sg; reflexivity. Qed.

Lemma deliver_order_id sigs s : order_id (deliver sigs s) = order_id s.
Proof.
  revert s. induction sigs as [|sg sigs IH]; intros s; cbn; [done|].
  unfold deliver in IH. rewrite IH. apply handle_order_id.
Qed.

(** *** The wait *)

(** A wait that ends with the condition false lasted the whole timeout. *)
Lemma suspend_false_is_timeout fn timeout batches s :
  fn (fst (fst (suspend fn timeout batches s))) = false ->
  snd (fst (suspend fn timeout batches s)) = timeout.
Proof.
  revert s. induction batches as [|[t sigs] rest IH]; intros s; cbn; [done|].
  destruct (t <? timeout)%Z.
  - destruct (fn (deliver sigs s)) eqn:Hfn; cbn.
    + intros H. congruence.
    + apply IH.
  - destruct (t =? timeout)%Z; done.
Qed.

(** *** The run up to the gate *)

Lemma execute_split oid pid ex :
  execute oid pid ex =
  run_from_gate oid pid ex (fst (fst (run_to_gate oid ex (init, []))))
    (snd (fst (run_to_gate oid ex (init, []))))
    (snd (run_to_gate oid ex (init, []))).
Proof.
  unfold execute, run, wbind.
  destruct (run_to_gate oid ex (init, [])) as [[order valid] st]. reflexivity.
Qed.

Ltac step_wait :=
  unfold _wait_for_approval_or_cancel, wait_condition, wbind; cbn;
  match goal with
  | |- context [suspend ?fn ?t ?b ?s] =>
      let s' := fresh "s'" in let el := fresh "elapsed" in let r := fresh "r" in
      let E := fresh "Esuspend" in
      destruct (suspend fn t b s) as [[s' el] r] eqn:E
  end.

(** Whatever the substrate does, the run up to the gate assigns the three
    steps in order, schedules the two activities and starts no child. *)
Lemma gate_history oid ex :
  let h := snd (snd (run_to_gate oid ex (init, []))) in
  steps h = ["RECEIVING_ORDER"; "VALIDATING_ORDER"; "WAITING_FOR_APPROVAL"] /\
  scheduled h = [RECV_ACT; VALIDATE_ACT] /\
  children h = [].
Proof.
  unfold run_to_gate, wbind, set_order_id, set_current_step, execute_activity,
    set_last_error, wret, init.
  destruct (receive_outcome ex), (validate_outcome ex); cbn;
    step_wait;
    match goal with
    | |- context [if ?b then _ else _] => destruct b
    end; destruct r; cbn; done.
Qed.

(** [valid] is the truth value the validate activity returned, and false
    when its invocation raised. *)
Lemma valid_at_gate_eq oid ex :
  valid_at_gate oid ex =
  match validate_outcome ex with
  | Returned v => truthy v
  | Raised _ => false
  end.
Proof.
  unfold valid_at_gate, run_to_gate, wbind, set_order_id, set_current_step,
    execute_activity, set_last_error, wret, init.
  destruct (receive_outcome ex), (validate_outcome ex); cbn;
    step_wait;
    match goal with
    | |- context [if ?b then _ else _] => destruct b
    end; destruct r; cbn; done.
Qed.

(** The wait recorded in the history; when the flags are both unset as it
    resolves, it lasted the whole window. *)
Lemma gate_wait oid ex :
  _approved (at_gate oid ex) = false ->
  _cancelled (at_gate oid ex) = false ->
  waits (snd (snd (run_to_gate oid ex (init, [])))) =
    [(MANUAL_REVIEW_WINDOW, MANUAL_REVIEW_WINDOW)].
Proof.
  unfold at_gate, run_to_gate, wbind, set_order_id, set_current_step,
    execute_activity, set_last_error, wret, init.
  destruct (receive_outcome ex), (validate_outcome ex); cbn;
    step_wait;
    match goal with
    | |- context [if ?b then _ else _] => destruct b eqn:Hfn
    end; destruct r; cbn; intros Ha Hc;
    try (rewrite Ha, Hc in Hfn; discriminate);
    match type of Esuspend with
    | suspend ?fn ?t ?b ?s = _ =>
        pose proof (suspend_false_is_timeout fn t b s) as Hto;
        rewrite Esuspend in Hto; cbn in Hto; rewrite Hto; [done|];
        rewrite Ha, Hc; done
    end.
Qed.

(** *** The run from the gate *)

Section from_gate.
Context (oid pid : string) (ex : execution) (order : value) (valid : bool).
Context (g : OrderWorkflow) (h : list event).

Lemma from_gate_cancelled :
  _cancelled g = true ->
  run_from_gate oid pid ex order valid (g, h) =
    (VDict [("status", VStr "cancelled"); ("order_id", VStr oid)],
     (Instance (order_id g) "CANCELLED" (_approved g) (_cancelled g)
               (_last_error g) (_address g),
      h ++ [Step (Snapshot (order_id g) "CANCELLED" (_last_error g))])).
Proof.
  intros Hc. destruct g; cbn in *; subst. reflexivity.
Qed.

Lemma from_gate_unapproved :
  _cancelled g = false -> _approved g = false ->
  let err := str_or (_last_error g) "Manual review timed out" in
  run_from_gate oid pid ex order valid (g, h) =
    (VDict [("status", VStr "manual_review_timeout"); ("order_id", VStr oid);
            ("error", VStr err)],
     (Instance (order_id g) "AWAITING_APPROVAL_TIMEOUT" (_approved g) (_cancelled g)
               (Some err) (_address g),
      h ++ [Step (Snapshot (order_id g) "AWAITING_APPROVAL_TIMEOUT" (Some err))])).
Proof.
  intros Hc Ha. destruct g; cbn in *; subst. reflexivity.
Qed.

Lemma from_gate_invalid :
  _cancelled g = false -> _approved g = true -> valid = false ->
  let err := str_or (_last_error g) "Order validation failed" in
  run_from_gate oid pid ex order valid (g, h) =
    (VDict [("status", VStr "validation_failed"); ("order_id", VStr oid);
            ("error", VStr err)],
     (Instance (order_id g) "VALIDATION_FAILED" (_approved g) (_cancelled g)
               (Some err) (_address g),
      h ++ [Step (Snapshot (order_id g) "VALIDATION_FAILED" (_last_error g))])).
Proof.
  intros Hc Ha Hv. destruct g; cbn in *; subst. reflexivity.
Qed.

(** From the gate on the run only adds to the history. *)
Lemma from_gate_extends :
  exists rest, snd (snd (run_from_gate oid pid ex order valid (g, h))) = h ++ rest.
Proof.
  unfold run_from_gate, wbind, self, set_current_step, set_last_error,
    execute_activity, start_child_workflow, wret. cbn.
  destruct (_cancelled g); [eexists; reflexivity|].
  destruct (_approved g); [|eexists; reflexivity].
  destruct valid; [|eexists; reflexivity]. cbn.
  destruct (charge_outcome ex); cbn;
    [|rewrite <- !app_assoc; eexists; reflexivity].
  destruct (shipping_outcome ex); cbn;
    rewrite <- !app_assoc; eexists; reflexivity.
Qed.

(** The charge result is handed on as it is: once the charge invocation has
    returned, the run goes on to start the child whatever the result says. *)
Lemma from_gate_charge_returned payment_result :
  _cancelled g = false -> _approved g = true -> valid = true ->
  charge_outcome ex = Returned payment_result ->
  shipping_outcome ex = Returned tt ->
  let r := run_from_gate oid pid ex order valid (g, h) in
  current_step (fst (snd r)) = "COMPLETED" /\
  fst r = VDict [("status", VStr "success"); ("order_id", VStr oid);
                 ("payment", payment_result)] /\
  children (snd (snd r)) = children h ++ ["ShippingWorkflow"].
Proof.
  intros Hc Ha Hv Hch Hsh. destruct g; cbn in *; subst.
  unfold run_from_gate, wbind, self, set_current_step, set_last_error,
    execute_activity, start_child_workflow, wret, children. cbn.
  rewrite Hch. cbn. rewrite Hsh. cbn.
  repeat split. rewrite !omap_app. cbn. rewrite !app_nil_r. reflexivity.
Qed.

End from_gate.

(** *** The properties of the saga *)

Ltac not_in_list :=
  let Hin := fresh "Hin" in
  intros Hin;
  repeat (apply elem_of_cons in Hin as [Hin|Hin]; [discriminate Hin|]);
  by apply elem_of_nil in Hin.

(** C4. When both the cancellation flag and the approval flag are set as
    the approval wait resolves, the run ends in step CANCELLED with result
    status "cancelled"; its steps are exactly the three steps up to the gate
    followed by CANCELLED, so it reaches neither CHARGING_PAYMENT nor
    COMPLETED. *)
Theorem cancellation_precedes_approval oid pid ex :
  _cancelled (at_gate oid ex) = true ->
  _approved (at_gate oid ex) = true ->
  current_step (final (execute oid pid ex)) = "CANCELLED" /\
  result_of (execute oid pid ex) =
    VDict [("status", VStr "cancelled"); ("order_id", VStr oid)] /\
  steps (history (execute oid pid ex)) =
    ["RECEIVING_ORDER"; "VALIDATING_ORDER"; "WAITING_FOR_APPROVAL"; "CANCELLED"] /\
  ("CHARGING_PAYMENT" ∉ steps (history (execute oid pid ex))) /\
  ("COMPLETED" ∉ steps (history (execute oid pid ex))).
Proof.
  intros Hc _. unfold final, result_of, history, at_gate in *.
  rewrite execute_split.
  destruct (gate_history oid ex) as (Hsteps & _ & _).
  destruct (run_to_gate oid ex (init, [])) as [[order valid] [g h]]; cbn [fst snd] in *.
  rewrite from_gate_cancelled by done. cbn [fst snd current_step].
  assert (Hall : steps (h ++ [Step (Snapshot (order_id g) "CANCELLED" (_last_error g))]) =
                 ["RECEIVING_ORDER"; "VALIDATING_ORDER"; "WAITING_FOR_APPROVAL"; "CANCELLED"]).
  { unfold steps in *. rewrite omap_app, Hsteps. reflexivity. }
  rewrite Hall. repeat split; not_in_list.
Qed.

Lemma cancellation_precedes_approval_witness :
  _cancelled (at_gate "O1" examples.ex_race) = true /\
  _approved (at_gate "O1" examples.ex_race) = true /\
  current_step (final (execute "O1" "P1" examples.ex_race)) = "CANCELLED".
Proof.
  split; [reflexivity|]. split; [reflexivity|].
  apply (cancellation_precedes_approval "O1" "P1" examples.ex_race); reflexivity.
Defined.

(** C5. When neither flag is set as the approval wait resolves, the wait
    lasted exactly MANUAL_REVIEW_WINDOW, and the run ends in step
    AWAITING_APPROVAL_TIMEOUT with result status "manual_review_timeout". *)
Theorem approval_timeout_at_window oid pid ex :
  _approved (at_gate oid ex) = false ->
  _cancelled (at_gate oid ex) = false ->
  current_step (final (execute oid pid ex)) = "AWAITING_APPROVAL_TIMEOUT" /\
  result_of (execute oid pid ex) =
    VDict [("status", VStr "manual_review_timeout"); ("order_id", VStr oid);
           ("error", VStr (str_or (_last_error (at_gate oid ex)) "Manual review timed out"))] /\
  waits (history (execute oid pid ex)) = [(MANUAL_REVIEW_WINDOW, MANUAL_REVIEW_WINDOW)].
Proof.
  intros Ha Hc. pose proof (gate_wait oid ex Ha Hc) as Hw.
  unfold final, result_of, history, at_gate in *.
  rewrite execute_split.
  destruct (run_to_gate oid ex (init, [])) as [[order valid] [g h]]; cbn [fst snd] in *.
  rewrite from_gate_unapproved by done. cbn [fst snd current_step].
  repeat split. unfold waits in *. rewrite omap_app, Hw. reflexivity.
Qed.

Lemma approval_timeout_at_window_witness :
  _approved (at_gate "O1" examples.ex_silent) = false /\
  _cancelled (at_gate "O1" examples.ex_silent) = false /\
  waits (history (execute "O1" "P1" examples.ex_silent)) = [(10000, 10000)%Z].
Proof.
  split; [reflexivity|]. split; [reflexivity|].
  apply (approval_timeout_at_window "O1" "P1" examples.ex_silent); reflexivity.
Defined.

(** C6. When validation produced false and, as the wait resolves, the
    approval flag is set and the cancellation flag is not, the run ends in
    step VALIDATION_FAILED with result status "validation_failed", and the
    charge activity is not among the activities it scheduled. *)
Theorem invalid_order_not_charged oid pid ex :
  valid_at_gate oid ex = false ->
  _approved (at_gate oid ex) = true ->
  _cancelled (at_gate oid ex) = false ->
  current_step (final (execute oid pid ex)) = "VALIDATION_FAILED" /\
  result_of (execute oid pid ex) =
    VDict [("status", VStr "validation_failed"); ("order_id", VStr oid);
           ("error", VStr (str_or (_last_error (at_gate oid ex)) "Order validation failed"))] /\
  scheduled (history (execute oid pid ex)) = [RECV_ACT; VALIDATE_ACT] /\
  (CHARGE_ACT ∉ scheduled (history (execute oid pid ex))).
Proof.
  intros Hv Ha Hc. unfold final, result_of, history, at_gate, valid_at_gate in *.
  rewrite execute_split.
  destruct (gate_history oid ex) as (_ & Hsched & _).
  destruct (run_to_gate oid ex (init, [])) as [[order valid] [g h]]; cbn [fst snd] in *.
  rewrite from_gate_invalid by done. cbn [fst snd current_step].
  assert (Hall : scheduled (h ++ [Step (Snapshot (order_id g) "VALIDATION_FAILED" (_last_error g))]) =
                 [RECV_ACT; VALIDATE_ACT]).
  { unfold scheduled in *. rewrite omap_app, Hsched. reflexivity. }
  rewrite Hall. repeat split. unfold CHARGE_ACT, RECV_ACT, VALIDATE_ACT. not_in_list.
Qed.

Lemma invalid_order_not_charged_witness :
  valid_at_gate "O1" examples.ex_invalid = false /\
  _approved (at_gate "O1" examples.ex_invalid) = true /\
  _cancelled (at_gate "O1" examples.ex_invalid) = false /\
  current_step (final (execute "O1" "P1" examples.ex_invalid)) = "VALIDATION_FAILED".
Proof.
  split; [reflexivity|]. split; [reflexivity|]. split; [reflexivity|].
  apply (invalid_order_not_charged "O1" "P1" examples.ex_invalid); reflexivity.
Defined.

(** The history up to the gate when the receive invocation raised. *)
Lemma gate_after_receive_fault oid ex exc :
  receive_outcome ex = Raised exc ->
  exists rest,
    snd (snd (run_to_gate oid ex (init, []))) =
      [Step (Snapshot (Some oid) "RECEIVING_ORDER" None);
       ActivityScheduled RECV_ACT (VStr oid);
       Step (Snapshot (Some oid) "VALIDATING_ORDER"
               (Some (if _is_timeout_exception exc
                      then "Activity task timed out during RECEIVE"
                      else "Receive error: " +:+ exc)));
       ActivityScheduled VALIDATE_ACT (default_order oid)] ++ rest.
Proof.
  intros Hrecv.
  unfold run_to_gate, wbind, set_order_id, set_current_step, execute_activity,
    set_last_error, wret, init.
  rewrite Hrecv. destruct (validate_outcome ex); cbn;
    step_wait;
    match goal with
    | |- context [if ?b then _ else _] => destruct b
    end; destruct r; cbn; rewrite ?deliver_order_id; cbn; eexists; reflexivity.
Qed.

(** The history up to the gate when the validate invocation raised. *)
Lemma gate_after_validate_fault oid ex exc :
  validate_outcome ex = Raised exc ->
  exists before elapsed,
    snd (snd (run_to_gate oid ex (init, []))) =
      before ++
      [Step (Snapshot (Some oid) "WAITING_FOR_APPROVAL"
               (Some (if _is_timeout_exception exc
                      then "Activity task timed out during VALIDATION"
                      else "Validation error: " +:+ exc)));
       Waited MANUAL_REVIEW_WINDOW elapsed].
Proof.
  intros Hval.
  unfold run_to_gate, wbind, set_order_id, set_current_step, execute_activity,
    set_last_error, wret, init.
  rewrite Hval. destruct (receive_outcome ex); cbn;
    step_wait;
    match goal with
    | |- context [if ?b then _ else _] => destruct b
    end; destruct r; cbn; rewrite ?deliver_order_id; cbn;
    eexists [_; _; _; _], _; reflexivity.
Qed.

(** C7. A receive invocation that raises leaves its error in last_error
    (the status at the next step shows it), and the run goes on to schedule
    the validate activity on the default order [{order_id, items: []}].  A
    validate invocation that raises leaves its error in last_error, makes
    [valid] false, and the run goes on to the approval wait.  The run does
    not end at either step. *)
Theorem invocation_faults_absorbed oid pid ex exc :
  (receive_outcome ex = Raised exc ->
   exists rest,
     history (execute oid pid ex) =
       [Step (Snapshot (Some oid) "RECEIVING_ORDER" None);
        ActivityScheduled RECV_ACT (VStr oid);
        Step (Snapshot (Some oid) "VALIDATING_ORDER"
                (Some (if _is_timeout_exception exc
                       then "Activity task timed out during RECEIVE"
                       else "Receive error: " +:+ exc)));
        ActivityScheduled VALIDATE_ACT
          (VDict [("order_id", VStr oid); ("items", VList [])])] ++ rest) /\
  (validate_outcome ex = Raised exc ->
   valid_at_gate oid ex = false /\
   exists before elapsed rest,
     history (execute oid pid ex) =
       before ++
       [Step (Snapshot (Some oid) "WAITING_FOR_APPROVAL"
                (Some (if _is_timeout_exception exc
                       then "Activity task timed out during VALIDATION"
                       else "Validation error: " +:+ exc)));
        Waited MANUAL_REVIEW_WINDOW elapsed] ++ rest).
Proof.
  split.
  - intros Hrecv.
    destruct (gate_after_receive_fault oid ex exc Hrecv) as [rest Hgate].
    unfold history. rewrite execute_split.
    destruct (run_to_gate oid ex (init, [])) as [[order valid] [g h]]; cbn [fst snd] in *.
    destruct (from_gate_extends oid pid ex order valid g h) as [rest' ->].
    rewrite Hgate. exists (rest ++ rest'). rewrite <- app_assoc. reflexivity.
  - intros Hval. split.
    { rewrite valid_at_gate_eq, Hval. reflexivity. }
    destruct (gate_after_validate_fault oid ex exc Hval) as (before & elapsed & Hgate).
    unfold history. rewrite execute_split.
    destruct (run_to_gate oid ex (init, [])) as [[order valid] [g h]]; cbn [fst snd] in *.
    destruct (from_gate_extends oid pid ex order valid g h) as [rest' ->].
    rewrite Hgate. exists before, elapsed, rest'. rewrite <- app_assoc. reflexivity.
Qed.

Lemma invocation_faults_absorbed_witness :
  receive_outcome examples.ex_receive_fault = Raised "connection reset" /\
  exists rest,
    history (execute "O1" "P1" examples.ex_receive_fault) =
      [Step (Snapshot (Some "O1") "RECEIVING_ORDER" None);
       ActivityScheduled RECV_ACT (VStr "O1");
       Step (Snapshot (Some "O1") "VALIDATING_ORDER"
               (Some (if _is_timeout_exception "connection reset"
                      then "Activity task timed out during RECEIVE"
                      else "Receive error: " +:+ "connection reset")));
       ActivityScheduled VALIDATE_ACT
         (VDict [("order_id", VStr "O1"); ("items", VList [])])] ++ rest.
Proof.
  split; [reflexivity|].
  apply (invocation_faults_absorbed "O1" "P1" examples.ex_receive_fault "connection reset").
  reflexivity.
Defined.

(** C10. A run that ends in step COMPLETED leaves last_error unset: the
    status query answers last_error = None, whatever was recorded earlier in
    the run. *)
Theorem completed_clears_last_error oid pid ex :
  current_step (final (execute oid pid ex)) = "COMPLETED" ->
  snap_last_error (status (final (execute oid pid ex))) = None.
Proof.
  unfold final. rewrite execute_split.
  destruct (run_to_gate oid ex (init, [])) as [[order valid] [g h]]; cbn [fst snd].
  unfold run_from_gate, wbind, self, set_current_step, set_last_error,
    execute_activity, start_child_workflow, wret, status.
  destruct g as [o st a c e ad]; cbn.
  destruct c; cbn; [discriminate|].
  destruct a; cbn; [|discriminate].
  destruct valid; cbn; [|discriminate].
  destruct (charge_outcome ex); cbn; [|discriminate].
  destruct (shipping_outcome ex); cbn; [reflexivity|discriminate].
Qed.

Lemma completed_clears_last_error_witness :
  In (Step (Snapshot (Some "O1") "VALIDATING_ORDER" (Some "Receive error: connection reset")))
     (history (execute "O1" "P1" examples.ex_receive_fault)) /\
  current_step (final (execute "O1" "P1" examples.ex_receive_fault)) = "COMPLETED" /\
  snap_last_error (status (final (execute "O1" "P1" examples.ex_receive_fault))) = None.
Proof.
  split; [cbn; tauto|]. split; [reflexivity|].
  apply (completed_clears_last_error "O1" "P1" examples.ex_receive_fault). reflexivity.
Defined.

(** C3, as stated, fails: the happy run ends in the terminal step COMPLETED
    with last_error unset, and handling DispatchFailed on that instance
    changes what the status query answers. *)
Lemma dispatch_failed_after_completion :
  current_step (final (execute "O1" "P1" examples.ex_happy)) ∈ terminal_steps /\
  status (final (execute "O1" "P1" examples.ex_happy)) = Snapshot (Some "O1") "COMPLETED" None /\
  status (DispatchFailed "carrier unreachable" (final (execute "O1" "P1" examples.ex_happy))) =
    Snapshot (Some "O1") "COMPLETED" (Some "DispatchFailed: carrier unreachable") /\
  status (DispatchFailed "carrier unreachable" (final (execute "O1" "P1" examples.ex_happy))) <>
    status (final (execute "O1" "P1" examples.ex_happy)).
Proof.
  split; [|split; [|split]].
  - vm_compute. set_solver.
  - reflexivity.
  - reflexivity.
  - vm_compute. discriminate.
Qed.

(** C3, amended. The DispatchFailed handler does not look at the step: on
    every instance, one in a terminal step included, it leaves order_id and
    step of the status answer as they are and sets last_error to
    "DispatchFailed: " followed by the reason; so the answer is unchanged
    exactly when last_error already was that text. *)
Theorem dispatch_failed_overwrites_last_error (inst : OrderWorkflow) reason :
  status (DispatchFailed reason inst) =
    Snapshot (order_id inst) (current_step inst) (Some ("DispatchFailed: " +:+ reason)) /\
  (status (DispatchFailed reason inst) = status inst <->
   _last_error inst = Some ("DispatchFailed: " +:+ reason)).
Proof.
  split; [reflexivity|].
  unfold status, DispatchFailed; cbn. split.
  - intros H. injection H as H. symmetry. exact H.
  - intros ->. reflexivity.
Qed.

(** Whatever result the charge invocation returns, a run that got as far as
    the charge goes on to start the child and ends in COMPLETED. *)
Lemma charge_result_not_inspected oid pid ex payment_result :
  _cancelled (at_gate oid ex) = false ->
  _approved (at_gate oid ex) = true ->
  valid_at_gate oid ex = true ->
  charge_outcome ex = Returned payment_result ->
  shipping_outcome ex = Returned tt ->
  current_step (final (execute oid pid ex)) = "COMPLETED" /\
  result_of (execute oid pid ex) =
    VDict [("status", VStr "success"); ("order_id", VStr oid); ("payment", payment_result)] /\
  children (history (execute oid pid ex)) = ["ShippingWorkflow"].
Proof.
  intros Hc Ha Hv Hch Hsh. unfold final, result_of, history, at_gate, valid_at_gate in *.
  rewrite execute_split.
  destruct (gate_history oid ex) as (_ & _ & Hchildren).
  destruct (run_to_gate oid ex (init, [])) as [[order valid] [g h]]; cbn [fst snd] in *.
  destruct (from_gate_charge_returned oid pid ex order valid g h payment_result
              Hc Ha Hv Hch Hsh) as (Hstep & Hres & Hkids).
  rewrite Hstep, Hres, Hkids, Hchildren. done.
Qed.

(** C1: the code at a declined charge.  The charge activity, run against a
    gateway that declines, returns the result with status "failed" and
    leaves the ledger row FAILED; the run that receives this result does not
    end in CHARGE_FAILED: it starts the shipping child, ends in COMPLETED
    and reports status "success". *)
Theorem failed_charge_result_reaches_completed :
  fst examples.declined_charge =
    Returned (VDict [("status", VStr "failed"); ("payment_id", VStr "P1");
                     ("error", VStr "card declined")]) /\
  row_status <$> payments (db (snd examples.declined_charge)) !! "P1" = Some "FAILED" /\
  current_step (final (execute "O1" "P1" examples.ex_declined)) = "COMPLETED" /\
  result_of (execute "O1" "P1" examples.ex_declined) =
    VDict [("status", VStr "success"); ("order_id", VStr "O1");
           ("payment", VDict [("status", VStr "failed"); ("payment_id", VStr "P1");
                              ("error", VStr "card declined")])] /\
  children (history (execute "O1" "P1" examples.ex_declined)) = ["ShippingWorkflow"] /\
  ("CHARGE_FAILED" ∉ steps (history (execute "O1" "P1" examples.ex_declined))).
Proof.
  repeat split; try (vm_compute; reflexivity).
  vm_compute. not_in_list.
Qed.

End workflows_spec.

(** ** The store, whatever the activities do *)

Module store_spec.
Import invariants.

Section with_collaborators.
Context (ext : collaborators).
Local Open Scope activity_scope.

(** *** Growth *)

Lemma grows_refl w : grows w w.
Proof.
  unfold grows. split; [done|]. split; [done|]. split; [done|]. split; [done|].
  intros pid r Hr. eauto.
Qed.

Lemma grows_trans w1 w2 w3 : grows w1 w2 -> grows w2 w3 -> grows w1 w3.
Proof.
  intros (He & Hg & Hc & Ho & Hp) (He' & Hg' & Hc' & Ho' & Hp').
  split; [by etrans|]. split; [by etrans|]. split; [lia|]. split; [by etrans|].
  intros pid r Hr. destruct (Hp pid r Hr) as (r' & Hr' & Hid).
  destruct (Hp' pid r' Hr') as (r'' & Hr'' & Hid'). exists r''. split; [done|congruence].
Qed.

(** No statement of [utils.py] removes an event, an order or a ledger row,
    or moves a ledger row to another order. *)
Lemma execute_statement_grows st d calls gw :
  grows (World d calls gw) (World (execute_statement st d) calls gw).
Proof.
  unfold grows; cbn [db db_calls gateway_calls].
  destruct st as [oid ty pl|oid state|pid oid|pid amount|pid]; cbn.
  - split; [by apply prefix_app_r|]. repeat (split; [done|]). eauto.
  - split; [done|]. split; [done|]. split; [done|].
    split; [rewrite dom_insert; set_solver|]. eauto.
  - destruct (payments d !! pid) as [r0|] eqn:E; cbn; repeat (split; [done|]); [eauto|].
    intros pid' r Hr. exists r. split; [|done].
    rewrite lookup_insert_ne; [done|]. intros ->. congruence.
  - destruct (payments d !! pid) as [r0|] eqn:E; cbn; repeat (split; [done|]); [|eauto].
    intros pid' r Hr. destruct (decide (pid = pid')) as [<-|Hne].
    + rewrite lookup_insert_eq. eexists. split; [done|]. cbn. congruence.
    + rewrite lookup_insert_ne by done. eauto.
  - destruct (payments d !! pid) as [r0|] eqn:E; cbn; repeat (split; [done|]); [|eauto].
    intros pid' r Hr. destruct (decide (pid = pid')) as [<-|Hne].
    + rewrite lookup_insert_eq. eexists. split; [done|]. cbn. congruence.
    + rewrite lookup_insert_ne by done. eauto.
Qed.

Lemma monotone_ret {A} (a : A) : monotone (ret a).
Proof. intros w. apply grows_refl. Qed.

Lemma monotone_lift {A} (r : outcome A) : monotone (lift r).
Proof. intros w. apply grows_refl. Qed.

Lemma monotone_bind {A B} (m : M A) (k : A -> M B) :
  monotone m -> (forall a, monotone (k a)) -> monotone (bind m k).
Proof.
  intros Hm Hk w. unfold bind. specialize (Hm w).
  destruct (m w) as [[a|exc] w1]; cbn in *; [|done].
  eapply grows_trans; [exact Hm|apply Hk].
Qed.

Lemma monotone_try_except {A} (m : M A) (h : string -> M A) :
  monotone m -> (forall exc, monotone (h exc)) -> monotone (try_except m h).
Proof.
  intros Hm Hh w. unfold try_except. specialize (Hm w).
  destruct (m w) as [[a|exc] w1]; cbn in *; [done|].
  eapply grows_trans; [exact Hm|apply Hh].
Qed.

Lemma monotone_try_finally {A} (m : M A) (fin : M unit) :
  monotone m -> monotone fin -> monotone (try_finally m fin).
Proof.
  intros Hm Hf w. unfold try_finally. specialize (Hm w).
  destruct (m w) as [r w1]. specialize (Hf w1).
  destruct (fin w1) as [[[]|exc] w2]; cbn in *; by eapply grows_trans.
Qed.

Lemma monotone_store_call : monotone (utils.store_call ext).
Proof.
  intros w. unfold utils.store_call.
  destruct (db_fault ext (db_calls w)); cbn; unfold grows; cbn;
    (split; [done|]); (split; [done|]); (split; [lia|]); (split; [done|]); eauto.
Qed.

Lemma monotone_write st : monotone (utils.write ext st).
Proof.
  unfold utils.write, utils.connect, utils.close, utils.execute.
  apply monotone_bind; [apply monotone_store_call|]. intros _.
  apply monotone_try_finally; [|apply monotone_store_call].
  apply monotone_bind; [apply monotone_store_call|]. intros _ w.
  destruct w as [d calls gw]. apply execute_statement_grows.
Qed.

Lemma monotone_fetchrow pid : monotone (utils.fetchrow_payment ext pid).
Proof.
  unfold utils.fetchrow_payment.
  apply monotone_bind; [apply monotone_store_call|]. intros _ w. apply grows_refl.
Qed.

Lemma monotone_ensure pid : monotone (utils.ensure_payment_idempotent ext pid).
Proof.
  unfold utils.ensure_payment_idempotent, utils.connect, utils.close.
  apply monotone_bind; [apply monotone_store_call|]. intros _.
  apply monotone_try_finally; [|apply monotone_store_call].
  apply monotone_bind; [apply monotone_fetchrow|]. intros [r|]; apply monotone_ret.
Qed.

Lemma monotone_gateway o pid : monotone (activities.call_payment_charged ext o pid).
Proof.
  intros w. unfold activities.call_payment_charged, grows; cbn.
  split; [done|]. split; [by apply prefix_app_r|]. split; [done|]. split; [done|]. eauto.
Qed.

End with_collaborators.

Ltac monotone_steps :=
  repeat first
    [ apply monotone_write | apply monotone_ensure | apply monotone_fetchrow
    | apply monotone_gateway | apply monotone_store_call
    | apply monotone_ret | apply monotone_lift
    | apply monotone_bind; [|intros ?]
    | apply monotone_try_except; [|intros ?]
    | apply monotone_try_finally
    | progress cbv zeta ].

Section with_collaborators.
Context (ext : collaborators).
Local Open Scope activity_scope.

(** *** Writes and reads on a sound store *)

Lemma sound_from w k d c gw n :
  store_sound ext w k -> c = (db_calls w + n)%nat -> (n + 3 <= k)%nat ->
  store_sound ext (World d c gw) 3.
Proof.
  intros Hsound -> Hle i Hi. cbn. rewrite <- Nat.add_assoc. apply Hsound. lia.
Qed.

(** X2. Upserting an order to a status one or more times in a row on a
    store that answers leaves what a single upsert leaves: the order has
    that status, and the other orders, the ledger and the events are as
    they were. *)
Theorem upsert_order_idempotent oid st n w :
  store_sound ext w (3 * S n) ->
  times (S n) (utils.upsert_order ext oid st) w =
    (Returned tt,
     World (Database (payments (db w)) (<[oid := st]> (orders (db w))) (events (db w)))
           (db_calls w + 3 * S n) (gateway_calls w)).
Proof.
  revert w. induction n as [|n IH]; intros w Hsound.
  - cbn [times]. unfold bind, utils.upsert_order.
    rewrite activities_spec.write_sound
      by (eapply activities_spec.store_sound_weaken; [|exact Hsound]; lia).
    cbn. reflexivity.
  - change (times (S (S n)) (utils.upsert_order ext oid st))
      with (bind (utils.upsert_order ext oid st)
              (fun _ => times (S n) (utils.upsert_order ext oid st))).
    unfold bind at 1. unfold utils.upsert_order at 1.
    rewrite activities_spec.write_sound
      by (eapply activities_spec.store_sound_weaken; [|exact Hsound]; lia).
    rewrite IH by (intros i Hi; cbn; rewrite <- Nat.add_assoc; apply Hsound; lia).
    cbn [db db_calls gateway_calls execute_statement payments orders events].
    rewrite insert_insert_eq. do 2 f_equal. lia.
Qed.

(** X3. Reserving a payment and then reading it, on a store that answers:
    the read returns the row that was already there, untouched, and
    otherwise a fresh row for this order with status INIT and amount 0. *)
Theorem reserve_then_read pid oid w :
  store_sound ext w 6 ->
  fst ((utils.insert_payment_init ext pid oid ;;
        utils.ensure_payment_idempotent ext pid) w) =
    Returned (Some (default (PaymentRow oid "INIT" 0) (payments (db w) !! pid))).
Proof.
  intros Hsound. unfold bind, utils.insert_payment_init.
  rewrite activities_spec.write_sound
    by (eapply activities_spec.store_sound_weaken; [|exact Hsound]; lia).
  rewrite activities_spec.ensure_payment_idempotent_sound
    by (intros i Hi; cbn; rewrite <- Nat.add_assoc; apply Hsound; lia).
  cbn. destruct (payments (db w) !! pid) as [r|] eqn:E; cbn.
  - rewrite E. reflexivity.
  - rewrite lookup_insert_eq. reflexivity.
Qed.

(** X4. Marking a payment that has no ledger row, as CHARGED or as FAILED,
    changes no table whatever the store does, and on a store that answers it
    returns without an error: no row is created and nothing is reported. *)
Theorem mark_unknown_payment_is_noop pid amount w :
  payments (db w) !! pid = None ->
  db (snd (utils.update_payment_charged ext pid amount w)) = db w /\
  db (snd (utils.update_payment_failed ext pid w)) = db w /\
  (store_sound ext w 3 ->
   fst (utils.update_payment_charged ext pid amount w) = Returned tt /\
   fst (utils.update_payment_failed ext pid w) = Returned tt).
Proof.
  intros Hnone. unfold utils.update_payment_charged, utils.update_payment_failed.
  destruct (activities_spec.write_frame ext (UpdatePaymentCharged pid amount) w) as [Hc _].
  destruct (activities_spec.write_frame ext (UpdatePaymentFailed pid) w) as [Hf _].
  cbn in Hc, Hf. rewrite Hnone in Hc, Hf.
  split; [by destruct Hc|]. split; [by destruct Hf|].
  intros Hsound. rewrite !activities_spec.write_sound by exact Hsound. done.
Qed.

(** X1. Whatever the gateway and the store do, an invocation of the charge
    activity only adds: the events and the gateway calls it found are a
    prefix of the ones it leaves, no order disappears, and every ledger row
    it found is still there under the same order. *)
Theorem charge_only_grows payload : monotone (activities.charge_payment_activity ext payload).
Proof.
  unfold activities.charge_payment_activity.
  destruct (activities.present _) as [pid|];
    [destruct (activities.present _) as [oid|]|].
  - unfold utils.insert_payment_init. apply monotone_bind; [apply monotone_write|].
    intros _. apply monotone_bind; [apply monotone_ensure|].
    intros [row|]; [destruct (String.eqb _ _)|].
    + unfold activities.already_charged, utils.insert_event. monotone_steps.
    + unfold activities.charge_through_gateway, utils.insert_event,
        utils.update_payment_charged, utils.update_payment_failed,
        utils.update_order_status, utils.upsert_order. monotone_steps.
    + unfold activities.charge_through_gateway, utils.insert_event,
        utils.update_payment_charged, utils.update_payment_failed,
        utils.update_order_status, utils.upsert_order. monotone_steps.
  - unfold activities.reject_missing, utils.insert_event. monotone_steps.
  - unfold activities.reject_missing, utils.insert_event. monotone_steps.
Qed.

End with_collaborators.
End store_spec.

(** ** More on the charge activity *)

Module charge_spec.
Import invariants activities.

Section with_collaborators.
Context (ext : collaborators).
Local Open Scope activity_scope.

(** *** Who calls the gateway *)

Lemma silent_ret {A} (a : A) : silent (ret a).
Proof. intros w. reflexivity. Qed.

Lemma silent_lift {A} (r : outcome A) : silent (lift r).
Proof. intros w. reflexivity. Qed.

Lemma silent_bind {A B} (m : M A) (k : A -> M B) :
  silent m -> (forall a, silent (k a)) -> silent (bind m k).
Proof.
  intros Hm Hk w. unfold bind. specialize (Hm w).
  destruct (m w) as [[a|exc] w1]; cbn in *; [|done]. rewrite Hk. exact Hm.
Qed.

Lemma silent_try_except {A} (m : M A) (h : string -> M A) :
  silent m -> (forall exc, silent (h exc)) -> silent (try_except m h).
Proof.
  intros Hm Hh w. unfold try_except. specialize (Hm w).
  destruct (m w) as [[a|exc] w1]; cbn in *; [done|]. rewrite Hh. exact Hm.
Qed.

Lemma silent_write st : silent (utils.write ext st).
Proof. intros w. apply activities_spec.write_frame. Qed.

Lemma silent_ensure pid : silent (utils.ensure_payment_idempotent ext pid).
Proof. intros w. apply activities_spec.ensure_payment_idempotent_frame. Qed.

Ltac silent_steps :=
  repeat first
    [ apply silent_write | apply silent_ensure
    | apply silent_ret | apply silent_lift
    | apply silent_bind; [|intros ?]
    | apply silent_try_except; [|intros ?]
    | progress cbv zeta ].

(** The gateway path calls the gateway once, with the order and the payment. *)
Lemma charge_through_gateway_calls o oid pid w :
  gateway_calls (snd (charge_through_gateway ext o oid pid w)) =
    gateway_calls w ++ [(order_value o, pid)].
Proof.
  unfold charge_through_gateway.
  match goal with
  | |- context [try_except (bind (call_payment_charged ext o pid) ?k) ?h] =>
      assert (Hk : forall result, silent (k result))
        by (intros result; unfold utils.update_payment_charged, utils.insert_event,
              utils.update_order_status, utils.upsert_order; silent_steps);
      assert (Hh : forall exc, silent (h exc))
        by (intros exc; unfold utils.update_payment_failed, utils.insert_event,
              utils.update_order_status, utils.upsert_order; silent_steps);
      generalize dependent k; generalize dependent h
  end.
  intros h Hh k Hk. unfold try_except, bind, call_payment_charged.
  destruct (payment_charged ext _ _ pid) as [result|exc]; cbn.
  - specialize (Hk result). unfold silent in Hk.
    match goal with
    | |- context [k result ?w1] => specialize (Hk w1); destruct (k result w1) as [[v|exc] w2]
    end; cbn in *; [done|]. rewrite Hh. exact Hk.
  - rewrite Hh. reflexivity.
Qed.

(** X6. An invocation calls the gateway at most once: the calls it leaves
    are the ones it found, or those followed by one call for the order and
    the payment of the payload. *)
Theorem gateway_called_at_most_once payload w :
  gateway_calls (snd (charge_payment_activity ext payload w)) = gateway_calls w \/
  exists o pid,
    payload ≫= payload_order = Some o /\
    payload ≫= payload_payment_id = Some pid /\
    gateway_calls (snd (charge_payment_activity ext payload w)) =
      gateway_calls w ++ [(order_value o, pid)].
Proof.
  unfold charge_payment_activity.
  destruct (present (payload ≫= payload_payment_id)) as [pid|] eqn:Epid;
    [destruct (present (order_id (default (Order None []) (payload ≫= payload_order))))
       as [oid|] eqn:Eoid|].
  - apply activities_spec.present_inv in Epid as [Epid _].
    assert (Ho : exists o, payload ≫= payload_order = Some o) by
      (destruct (payload ≫= payload_order); [eauto|discriminate]).
    destruct Ho as [o Ho]. rewrite Ho. cbn [default].
    unfold bind, utils.insert_payment_init.
    pose proof (silent_write (InsertPaymentInit pid oid) w) as Hw.
    destruct (utils.write ext (InsertPaymentInit pid oid) w) as [[[]|exc] wa]; cbn in *;
      [|by left].
    pose proof (silent_ensure pid wa) as He.
    destruct (utils.ensure_payment_idempotent ext pid wa) as [[existing|exc] wb]; cbn in *;
      [|left; congruence].
    assert (Hgate :
      gateway_calls (snd (charge_through_gateway ext o oid pid wb)) =
        gateway_calls w ++ [(order_value o, pid)])
      by (rewrite charge_through_gateway_calls; congruence).
    destruct existing as [row|]; [destruct (String.eqb (row_status row) "CHARGED")|].
    + left. destruct (activities_spec.already_charged_spec ext oid pid row wb) as (_ & _ & ->).
      congruence.
    + right. exists o, pid. done.
    + right. exists o, pid. done.
  - left. apply activities_spec.reject_missing_frame.
  - left. apply activities_spec.reject_missing_frame.
Qed.

(** X7. Only a CHARGED row stops the gateway call: with both identifiers
    present, a store that answers the reservation and the read, and a ledger
    row that is absent, INIT or FAILED, the invocation calls the gateway. *)
Theorem uncharged_row_reaches_gateway (o : order) oid pid w :
  order_id o = Some oid -> oid <> "" -> pid <> "" ->
  store_sound ext w 6 ->
  (forall row, payments (db w) !! pid = Some row -> row_status row <> "CHARGED") ->
  gateway_calls (snd (charge_payment_activity ext (Some (ChargePayload (Some o) (Some pid))) w)) =
    gateway_calls w ++ [(order_value o, pid)].
Proof.
  intros Ho Hoid Hpid Hsound Hrow.
  unfold charge_payment_activity. cbn. rewrite Ho.
  rewrite (activities_spec.present_given pid Hpid), (activities_spec.present_given oid Hoid).
  unfold bind, utils.insert_payment_init.
  rewrite activities_spec.write_sound
    by (eapply activities_spec.store_sound_weaken; [|exact Hsound]; lia).
  rewrite activities_spec.ensure_payment_idempotent_sound
    by (intros i Hi; cbn; rewrite <- Nat.add_assoc; apply Hsound; lia).
  cbn [db execute_statement].
  destruct (payments (db w) !! pid) as [row|] eqn:E; cbn [payments].
  - rewrite E. destruct (String.eqb_spec (row_status row) "CHARGED") as [Hst|_].
    + exfalso. by apply (Hrow row).
    + rewrite charge_through_gateway_calls. reflexivity.
  - rewrite lookup_insert_eq. cbn.
    rewrite charge_through_gateway_calls. reflexivity.
Qed.

(** *** The three endings of the gateway path *)

Lemma bind_returned {A B} (m : M A) (k : A -> M B) w a w' :
  m w = (Returned a, w') -> bind m k w = k a w'.
Proof. intros H. unfold bind. rewrite H. reflexivity. Qed.

Lemma bind_raised {A B} (m : M A) (k : A -> M B) w exc w' :
  m w = (Raised exc, w') -> bind m k w = (Raised exc, w').
Proof. intros H. unfold bind. rewrite H. reflexivity. Qed.

Lemma try_except_returned {A} (m : M A) (h : string -> M A) w a w' :
  m w = (Returned a, w') -> try_except m h w = (Returned a, w').
Proof. intros H. unfold try_except. rewrite H. reflexivity. Qed.

Lemma try_except_raised {A} (m : M A) (h : string -> M A) w exc w' :
  m w = (Raised exc, w') -> try_except m h w = h exc w'.
Proof. intros H. unfold try_except. rewrite H. reflexivity. Qed.

(** A write whose connection is refused raises and changes nothing. *)
Lemma write_refused st w exc :
  db_fault ext (db_calls w) = Some exc ->
  utils.write ext st w = (Raised exc, World (db w) (S (db_calls w)) (gateway_calls w)).
Proof.
  intros H. unfold utils.write, utils.connect, utils.store_call, bind. rewrite H. reflexivity.
Qed.

Ltac sound Hsound :=
  let i := fresh "i" in let Hi := fresh "Hi" in
  intros i Hi; cbn [db_calls]; rewrite <- ?Nat.add_assoc; apply Hsound; cbn; lia.

Ltac write_step Hsound :=
  erewrite bind_returned by (apply activities_spec.write_sound; sound Hsound);
  cbv beta; cbn [db db_calls gateway_calls].

Ltac unfold_utils :=
  unfold utils.insert_payment_init, utils.update_payment_charged,
    utils.update_payment_failed, utils.insert_event, utils.update_order_status,
    utils.upsert_order; cbv zeta.

(** The invocation up to the gateway path, on a store that answers and a
    row that is not CHARGED. *)
Lemma reaches_gateway_path (o : order) oid pid w :
  order_id o = Some oid -> oid <> "" -> pid <> "" ->
  store_sound ext w 6 ->
  (forall row, payments (db w) !! pid = Some row -> row_status row <> "CHARGED") ->
  charge_payment_activity ext (Some (ChargePayload (Some o) (Some pid))) w =
    charge_through_gateway ext o oid pid
      (World (execute_statement (InsertPaymentInit pid oid) (db w))
             (db_calls w + 3 + 3) (gateway_calls w)).
Proof.
  intros Ho Hoid Hpid Hsound Hrow.
  unfold charge_payment_activity. cbn. rewrite Ho.
  rewrite (activities_spec.present_given pid Hpid), (activities_spec.present_given oid Hoid).
  unfold_utils. write_step Hsound.
  erewrite bind_returned
    by (apply activities_spec.ensure_payment_idempotent_sound; sound Hsound).
  cbv beta. cbn [db db_calls gateway_calls execute_statement].
  destruct (payments (db w) !! pid) as [row|] eqn:E; cbn [payments].
  - rewrite E. destruct (String.eqb_spec (row_status row) "CHARGED") as [Hst|_];
      [exfalso; by apply (Hrow row)|reflexivity].
  - rewrite lookup_insert_eq. reflexivity.
Qed.

(** What [float] makes of a number that is not a double, and of one that is
    beyond the doubles. *)
Lemma float_rounds_to_even :
  float ext (VNum (inject_Z (2 ^ 53 + 1))) = Returned (inject_Z (2 ^ 53)) /\
  float ext (VNum (inject_Z (2 ^ 53 + 3))) = Returned (inject_Z (2 ^ 53 + 4)) /\
  float ext (VNum (1 # 10)) = Returned (3602879701896397 # 36028797018963968) /\
  float ext (VNum (85 # 2)) = Returned (85 # 2).
Proof. repeat split; vm_compute; reflexivity. Qed.

Lemma float_overflows :
  float ext (VNum (inject_Z (2 ^ 1024 - 2 ^ 970 - 1))) =
    Returned (inject_Z (2 ^ 1024 - 2 ^ 971)) /\
  float ext (VNum (inject_Z (2 ^ 1024 - 2 ^ 970))) = Raised "int too large to convert to float" /\
  float ext (VNum (inject_Z (10 ^ 400))) = Raised "int too large to convert to float".
Proof. repeat split; vm_compute; reflexivity. Qed.

(** X8. A charge that goes through, on a store that answers: with a row
    that is not CHARGED and a gateway that returns an amount that [float]
    converts, the invocation returns status "charged" with the amount as
    converted (the nearest double of a number), leaves the ledger row
    CHARGED with it (under the order the row was first reserved for), the
    order PAID, one more event PAYMENT_CHARGED holding the gateway's own
    result, and one gateway call. *)
Theorem charge_success (o : order) oid pid w result amount_entry amount :
  order_id o = Some oid -> oid <> "" -> pid <> "" ->
  store_sound ext w 15 ->
  (forall row, payments (db w) !! pid = Some row -> row_status row <> "CHARGED") ->
  payment_charged ext (length (gateway_calls w)) (order_value o) pid = Returned result ->
  get result "amount" (VNum 0) = Returned amount_entry ->
  float ext amount_entry = Returned amount ->
  charge_payment_activity ext (Some (ChargePayload (Some o) (Some pid))) w =
    (Returned (VDict [("status", VStr "charged"); ("amount", VNum amount)]),
     World
       (Database
          (<[pid := PaymentRow (default oid (row_order_id <$> payments (db w) !! pid))
                      "CHARGED" amount]> (payments (db w)))
          (<[oid := "PAID"]> (orders (db w)))
          (events (db w) ++
           [EventRow oid "PAYMENT_CHARGED"
              (VDict [("payment_id", VStr pid); ("result", result)])]))
       (db_calls w + 15) (gateway_calls w ++ [(order_value o, pid)])).
Proof.
  intros Ho Hoid Hpid Hsound Hrow Hgate Hget Hfloat.
  rewrite (reaches_gateway_path o oid pid w Ho Hoid Hpid)
    by (first [exact Hrow | eapply activities_spec.store_sound_weaken; [|exact Hsound]; lia]).
  unfold charge_through_gateway. unfold_utils.
  erewrite try_except_returned; [reflexivity|].
  erewrite bind_returned by (unfold call_payment_charged; cbn [gateway_calls db db_calls];
                             rewrite Hgate; reflexivity).
  cbv beta. unfold lift at 1. erewrite bind_returned by (rewrite Hget; reflexivity).
  cbv beta. unfold lift at 1. erewrite bind_returned by (rewrite Hfloat; reflexivity).
  cbv beta. write_step Hsound. write_step Hsound. write_step Hsound.
  unfold ret. f_equal. f_equal; [|lia].
  cbn [execute_statement payments orders events].
  destruct (payments (db w) !! pid) as [row|] eqn:E; cbn [payments orders events].
  - rewrite E. cbn. reflexivity.
  - rewrite lookup_insert_eq. cbn. rewrite insert_insert_eq. reflexivity.
Qed.

(** X9. A charge that the gateway refuses, on a store that answers: the
    invocation returns status "failed" with the gateway's message, leaves
    the ledger row FAILED, the order PAYMENT_FAILED, one more event
    PAYMENT_FAILED, and one gateway call. *)
Theorem charge_declined (o : order) oid pid w exc :
  order_id o = Some oid -> oid <> "" -> pid <> "" ->
  store_sound ext w 15 ->
  (forall row, payments (db w) !! pid = Some row -> row_status row <> "CHARGED") ->
  payment_charged ext (length (gateway_calls w)) (order_value o) pid = Raised exc ->
  charge_payment_activity ext (Some (ChargePayload (Some o) (Some pid))) w =
    (Returned (VDict [("status", VStr "failed"); ("payment_id", VStr pid);
                      ("error", VStr exc)]),
     World
       (Database
          (<[pid := PaymentRow (default oid (row_order_id <$> payments (db w) !! pid))
                      "FAILED" (default 0%Q (row_amount <$> payments (db w) !! pid))]>
             (payments (db w)))
          (<[oid := "PAYMENT_FAILED"]> (orders (db w)))
          (events (db w) ++
           [EventRow oid "PAYMENT_FAILED"
              (VDict [("payment_id", VStr pid); ("error", VStr exc)])]))
       (db_calls w + 15) (gateway_calls w ++ [(order_value o, pid)])).
Proof.
  intros Ho Hoid Hpid Hsound Hrow Hgate.
  rewrite (reaches_gateway_path o oid pid w Ho Hoid Hpid)
    by (first [exact Hrow | eapply activities_spec.store_sound_weaken; [|exact Hsound]; lia]).
  unfold charge_through_gateway. unfold_utils.
  erewrite try_except_raised
    by (erewrite bind_raised; [reflexivity|];
        unfold call_payment_charged; cbn [gateway_calls db db_calls];
        rewrite Hgate; reflexivity).
  erewrite bind_returned
    by (erewrite try_except_returned; [reflexivity|];
        apply activities_spec.write_sound; sound Hsound).
  cbv beta. cbn [db db_calls gateway_calls].
  erewrite bind_returned
    by (erewrite try_except_returned; [reflexivity|];
        write_step Hsound; apply activities_spec.write_sound; sound Hsound).
  cbv beta. cbn [db db_calls gateway_calls].
  unfold ret. f_equal. f_equal; [|lia].
  cbn [execute_statement payments orders events].
  destruct (payments (db w) !! pid) as [row|] eqn:E; cbn [payments orders events].
  - rewrite E. cbn. reflexivity.
  - rewrite lookup_insert_eq. cbn. rewrite insert_insert_eq. reflexivity.
Qed.


(** A guarded block always returns. *)
Lemma guarded_returns (m : M unit) w :
  try_except m (fun _ => ret tt) w = (Returned tt, snd (m w)).
Proof. unfold try_except, ret. destruct (m w) as [[[]|exc] w']; reflexivity. Qed.

(** Two writes that do not concern the ledger leave it as it is, whatever
    the store does. *)
Lemma writes_keep_ledger st1 st2 w :
  (forall d, payments (execute_statement st1 d) = payments d) ->
  (forall d, payments (execute_statement st2 d) = payments d) ->
  payments (db (snd ((utils.write ext st1 ;; utils.write ext st2) w))) = payments (db w) /\
  gateway_calls (snd ((utils.write ext st1 ;; utils.write ext st2) w)) = gateway_calls w.
Proof.
  intros H1 H2. unfold bind.
  destruct (activities_spec.write_frame ext st1 w) as [Hdb Hgw].
  destruct (utils.write ext st1 w) as [[[]|exc] w1]; cbn in *.
  - destruct (activities_spec.write_frame ext st2 w1) as [Hdb2 Hgw2].
    rewrite Hgw2, Hgw. split; [|done].
    destruct Hdb2 as [-> | ->]; rewrite ?H2; destruct Hdb as [-> | ->]; by rewrite ?H1.
  - split; [|done]. destruct Hdb as [-> | ->]; by rewrite ?H1.
Qed.

(** X10. A charge that went through is reported as failed when the audit
    insert that follows cannot connect: with the row marked CHARGED and the
    store refusing the next connection, the invocation returns status
    "failed" with the store's message and, the store answering again, marks
    the row FAILED with the charged amount; the gateway has been called. *)
Theorem charged_then_reported_failed (o : order) oid pid w result amount_entry amount exc :
  order_id o = Some oid -> oid <> "" -> pid <> "" ->
  store_sound ext w 9 ->
  db_fault ext (db_calls w + 9) = Some exc ->
  (forall i, (i < 3)%nat -> db_fault ext (db_calls w + 10 + i) = None) ->
  (forall row, payments (db w) !! pid = Some row -> row_status row <> "CHARGED") ->
  payment_charged ext (length (gateway_calls w)) (order_value o) pid = Returned result ->
  get result "amount" (VNum 0) = Returned amount_entry ->
  float ext amount_entry = Returned amount ->
  fst (charge_payment_activity ext (Some (ChargePayload (Some o) (Some pid))) w) =
    Returned (VDict [("status", VStr "failed"); ("payment_id", VStr pid);
                     ("error", VStr exc)]) /\
  payments (db (snd (charge_payment_activity ext (Some (ChargePayload (Some o) (Some pid))) w)))
    !! pid =
    Some (PaymentRow (default oid (row_order_id <$> payments (db w) !! pid)) "FAILED" amount) /\
  gateway_calls (snd (charge_payment_activity ext (Some (ChargePayload (Some o) (Some pid))) w)) =
    gateway_calls w ++ [(order_value o, pid)].
Proof.
  intros Ho Hoid Hpid Hsound Hrefused Hlater Hrow Hgate Hget Hfloat.
  rewrite (reaches_gateway_path o oid pid w Ho Hoid Hpid)
    by (first [exact Hrow | eapply activities_spec.store_sound_weaken; [|exact Hsound]; lia]).
  unfold charge_through_gateway. unfold_utils.
  erewrite try_except_raised.
  2: { erewrite bind_returned
         by (unfold call_payment_charged; cbn [gateway_calls db db_calls];
             rewrite Hgate; reflexivity).
       cbv beta. unfold lift at 1. erewrite bind_returned by (rewrite Hget; reflexivity).
       cbv beta. unfold lift at 1. erewrite bind_returned by (rewrite Hfloat; reflexivity).
       cbv beta. write_step Hsound.
       erewrite bind_raised; [reflexivity|].
       apply write_refused. cbn [db_calls].
       replace (db_calls w + 3 + 3 + 3)%nat with (db_calls w + 9)%nat by lia.
       exact Hrefused. }
  cbn [db db_calls gateway_calls].
  erewrite bind_returned.
  2: { erewrite try_except_returned; [reflexivity|].
       apply activities_spec.write_sound. intros i Hi. cbn [db_calls].
       replace (S (db_calls w + 3 + 3 + 3) + i)%nat with (db_calls w + 10 + i)%nat by lia.
       by apply Hlater. }
  cbv beta. cbn [db db_calls gateway_calls].
  erewrite bind_returned by apply guarded_returns.
  cbv beta. unfold ret. cbn [fst snd].
  match goal with
  | |- context [(utils.write ext ?st1 ;; utils.write ext ?st2) ?w2] =>
      destruct (writes_keep_ledger st1 st2 w2) as [-> ->]; [done..|]
  end.
  cbn [db gateway_calls]. split; [done|]. split; [|done].
  cbn [execute_statement payments].
  destruct (payments (db w) !! pid) as [row|] eqn:E; cbn [payments].
  - rewrite E. cbn. rewrite lookup_insert_eq. cbn. rewrite lookup_insert_eq. reflexivity.
  - rewrite lookup_insert_eq. cbn. rewrite lookup_insert_eq. cbn.
    rewrite lookup_insert_eq. reflexivity.
Qed.

End with_collaborators.
End charge_spec.

(** ** The other activities *)

Module order_activities_spec.
Import invariants order_activities store_spec.

Section with_collaborators.
Context (ext : collaborators) (stubs : function_stubs).
Local Open Scope activity_scope.

Lemma total_ret {A} (a : A) : total (ret a).
Proof. intros w. eexists. reflexivity. Qed.

(** A handler that guards its own writes and then returns makes the whole
    block total. *)
Lemma total_handled {A} (m : M A) (cleanup : string -> M unit) (failure : string -> A) :
  total (try_except m
           (fun err => try_except (cleanup err) (fun _ => ret tt) ;; ret (failure err))).
Proof.
  intros w. unfold try_except at 1.
  destruct (m w) as [[a|exc] w1]; [eexists; reflexivity|].
  unfold bind. rewrite charge_spec.guarded_returns. eexists. reflexivity.
Qed.

(** X11. None of the five activities raises: whatever the stub and the
    store do, each invocation returns a value. *)
Theorem order_activities_never_raise :
  (forall order_id, total (receive_order_activity ext stubs order_id)) /\
  (forall o, total (validate_order_activity ext stubs o)) /\
  (forall o, total (ship_order_activity ext stubs o)) /\
  (forall o, total (prepare_package_activity ext stubs o)) /\
  (forall o, total (dispatch_carrier_activity ext stubs o)).
Proof.
  (split; [|split; [|split; [|split]]]); intros x;
    [unfold receive_order_activity | unfold validate_order_activity
    | unfold ship_order_activity | unfold prepare_package_activity
    | unfold dispatch_carrier_activity];
    cbv zeta; apply total_handled.
Qed.

(** X12. Whatever the stub and the store do, each of the five activities
    only adds to the store: events and orders stay, and so does every
    ledger row. *)
Theorem order_activities_only_grow :
  (forall order_id, monotone (receive_order_activity ext stubs order_id)) /\
  (forall o, monotone (validate_order_activity ext stubs o)) /\
  (forall o, monotone (ship_order_activity ext stubs o)) /\
  (forall o, monotone (prepare_package_activity ext stubs o)) /\
  (forall o, monotone (dispatch_carrier_activity ext stubs o)).
Proof.
  (split; [|split; [|split; [|split]]]); intros x;
    [unfold receive_order_activity | unfold validate_order_activity
    | unfold ship_order_activity | unfold prepare_package_activity
    | unfold dispatch_carrier_activity];
    unfold utils.insert_event, utils.update_order_status, utils.upsert_order;
    monotone_steps.
Qed.

(** X13. When its stub raises, an activity returns its failure value with
    the stub's message, whatever the store does with the writes of the
    handler: a dict of status "receive_failed", "ship_failed",
    "prepare_failed" or "dispatch_failed", and [False] for validation. *)
Theorem stub_fault_is_returned exc w :
  (forall order_id,
     order_received stubs order_id = Raised exc ->
     fst (receive_order_activity ext stubs order_id w) =
       Returned (VDict [("order_id", VStr order_id); ("status", VStr "receive_failed");
                        ("error", VStr exc)])) /\
  (forall o,
     order_validated stubs (known_value o) = Raised exc ->
     fst (validate_order_activity ext stubs o w) = Returned (VBool false)) /\
  (forall o,
     order_shipped stubs (known_value o) = Raised exc ->
     fst (ship_order_activity ext stubs o w) =
       Returned (VDict [("status", VStr "ship_failed"); ("order_id", VStr (known_id o));
                        ("error", VStr exc)])) /\
  (forall o,
     package_prepared stubs (known_value o) = Raised exc ->
     fst (prepare_package_activity ext stubs o w) =
       Returned (VDict [("status", VStr "prepare_failed"); ("order_id", VStr (known_id o));
                        ("error", VStr exc)])) /\
  (forall o,
     carrier_dispatched stubs (known_value o) = Raised exc ->
     fst (dispatch_carrier_activity ext stubs o w) =
       Returned (VDict [("status", VStr "dispatch_failed"); ("order_id", VStr (known_id o));
                        ("error", VStr exc)])).
Proof.
  (split; [|split; [|split; [|split]]]); intros x Hstub;
    [unfold receive_order_activity | unfold validate_order_activity
    | unfold ship_order_activity | unfold prepare_package_activity
    | unfold dispatch_carrier_activity];
    cbv zeta;
    (erewrite charge_spec.try_except_raised
       by (erewrite charge_spec.bind_raised; [reflexivity|];
           unfold lift; rewrite Hstub; reflexivity));
    unfold bind; rewrite charge_spec.guarded_returns; reflexivity.
Qed.

(** The two ways out of a guarded activity body. *)
Lemma handled_cases {A} (m : M A) (cleanup : string -> M unit) (failure : string -> A) w :
  (exists a w', m w = (Returned a, w') /\
     try_except m
       (fun err => try_except (cleanup err) (fun _ => ret tt) ;; ret (failure err)) w
     = (Returned a, w')) \/
  (exists exc,
     fst (try_except m
            (fun err => try_except (cleanup err) (fun _ => ret tt) ;; ret (failure err)) w)
     = Returned (failure exc)).
Proof.
  unfold try_except at 1 3. destruct (m w) as [[a|exc] w1]; [left; eauto|].
  right. exists exc. unfold bind. rewrite charge_spec.guarded_returns. reflexivity.
Qed.

Lemma bind_returned_inv {A B} (m : M A) (k : A -> M B) w b w'' :
  bind m k w = (Returned b, w'') ->
  exists a w', m w = (Returned a, w') /\ k a w' = (Returned b, w'').
Proof.
  unfold bind. destruct (m w) as [[a|exc] w']; [eauto|discriminate].
Qed.

(** X14. Receiving an order: the invocation returns either what the stub
    returned, and then the order is RECEIVED and the event ORDER_RECEIVED
    with that result is the last of the log, or the dict of status
    "receive_failed". *)
Theorem receive_outcomes order_id w :
  exists v,
    fst (receive_order_activity ext stubs order_id w) = Returned v /\
    ((order_received stubs order_id = Returned v /\
      orders (db (snd (receive_order_activity ext stubs order_id w))) !! order_id
        = Some "RECEIVED" /\
      events (db (snd (receive_order_activity ext stubs order_id w))) =
        events (db w) ++ [EventRow order_id "ORDER_RECEIVED" (utils.payload_or_empty v)]) \/
     exists err,
       v = VDict [("order_id", VStr order_id); ("status", VStr "receive_failed");
                  ("error", VStr err)]).
Proof.
  unfold receive_order_activity.
  match goal with
  | |- context [try_except ?m (fun err => try_except (@?c err) _ ;; ret (@?f err))] =>
      destruct (handled_cases m c f w) as [(v & w' & Hbody & ->)|(exc & ->)]
  end.
  2: { eexists. split; [reflexivity|]. right. eauto. }
  exists v. split; [reflexivity|]. left. cbn [fst snd].
  apply bind_returned_inv in Hbody as (result & w0 & Hstub & Hbody).
  apply bind_returned_inv in Hbody as ([] & w1 & Hupsert & Hbody).
  apply bind_returned_inv in Hbody as ([] & w2 & Hevent & Hbody).
  unfold lift in Hstub. unfold ret in Hbody.
  injection Hstub as Hstub <-. injection Hbody as <- <-.
  apply activities_spec.write_returned in Hupsert as [Hdb1 _].
  apply activities_spec.write_returned in Hevent as [Hdb2 _].
  split; [exact Hstub|]. rewrite Hdb2, Hdb1. cbn. rewrite lookup_insert_eq. done.
Qed.

(** X15. Validation answers with a boolean, and answers [True] only when
    the stub found the order valid and the store took both writes: the
    order is then VALIDATED and the event ORDER_VALIDATED is the last of the
    log. *)
Theorem validate_true_means_recorded o w :
  exists b,
    fst (validate_order_activity ext stubs o w) = Returned (VBool b) /\
    (b = true ->
     exists valid,
       order_validated stubs (known_value o) = Returned valid /\ truthy valid = true /\
       orders (db (snd (validate_order_activity ext stubs o w))) !! known_id o
         = Some "VALIDATED" /\
       events (db (snd (validate_order_activity ext stubs o w))) =
         events (db w) ++ [EventRow (known_id o) "ORDER_VALIDATED" (VDict [("valid", valid)])]).
Proof.
  unfold validate_order_activity. cbv zeta.
  match goal with
  | |- context [try_except ?m (fun err => try_except (@?c err) _ ;; ret (@?f err))] =>
      destruct (handled_cases m c f w) as [(v & w' & Hbody & ->)|(exc & ->)]
  end.
  2: { exists false. done. }
  cbn [fst snd].
  apply bind_returned_inv in Hbody as (valid & w0 & Hstub & Hbody).
  apply bind_returned_inv in Hbody as ([] & w1 & Hupsert & Hbody).
  apply bind_returned_inv in Hbody as ([] & w2 & Hevent & Hbody).
  unfold lift in Hstub. unfold ret in Hbody.
  injection Hstub as Hstub <-. injection Hbody as <- <-.
  apply activities_spec.write_returned in Hupsert as [Hdb1 _].
  apply activities_spec.write_returned in Hevent as [Hdb2 _].
  exists (truthy valid). split; [reflexivity|].
  intros Hvalid. exists valid. split; [exact Hstub|]. split; [exact Hvalid|].
  rewrite Hdb2, Hdb1, Hvalid. cbn. rewrite lookup_insert_eq. done.
Qed.

(** X16. A store fault makes a valid order invalid: when the stub finds
    the order valid but the store refuses the connection of the status
    update, the invocation returns [False]. *)
Theorem store_fault_invalidates_order o w valid exc :
  order_validated stubs (known_value o) = Returned valid ->
  db_fault ext (db_calls w) = Some exc ->
  fst (validate_order_activity ext stubs o w) = Returned (VBool false).
Proof.
  intros Hstub Hfault.
  unfold validate_order_activity, utils.insert_event, utils.update_order_status,
    utils.upsert_order. cbv zeta.
  erewrite charge_spec.try_except_raised.
  2: { erewrite charge_spec.bind_returned by (unfold lift; rewrite Hstub; reflexivity).
       cbv beta. erewrite charge_spec.bind_raised; [reflexivity|].
       by apply charge_spec.write_refused. }
  unfold bind. rewrite charge_spec.guarded_returns. reflexivity.
Qed.

End with_collaborators.
End order_activities_spec.

(** ** More on OrderWorkflow *)

Module workflows_more_spec.
Import workflows views.

(** *** Signals *)

Lemma deliver_cons sg sigs s : deliver (sg :: sigs) s = deliver sigs (handle sg s).
Proof. reflexivity. Qed.

(** What a delivery does to the two flags. *)
Lemma deliver_flags sigs s :
  (_approved s = true -> _approved (deliver sigs s) = true) /\
  (_cancelled s = true -> _cancelled (deliver sigs s) = true) /\
  (SigApprove ∈ sigs -> _approved (deliver sigs s) = true) /\
  (forall reason, SigCancelOrder reason ∈ sigs -> _cancelled (deliver sigs s) = true).
Proof.
  revert s. induction sigs as [|sg sigs IH]; intros s.
  - split; [done|]. split; [done|]. split; [|intros reason]; by intros ?%elem_of_nil.
  - rewrite deliver_cons. destruct (IH (handle sg s)) as (Ha & Hc & HA & HC).
    split; [|split; [|split]].
    + intros H. apply Ha. destruct sg; cbn; done.
    + intros H. apply Hc. destruct sg; cbn; done.
    + intros [<-|Hin]%elem_of_cons; [apply Ha; reflexivity|by apply HA].
    + intros reason [<-|Hin]%elem_of_cons; [apply Hc; reflexivity|by apply (HC reason)].
Qed.

(** X17. Signals only ever set the two flags: a flag that is set stays set
    through any delivery, and a delivery that contains Approve (or
    CancelOrder) leaves the approval (or cancellation) flag set. *)
Theorem flags_only_set sigs s :
  (_approved s = true -> _approved (deliver sigs s) = true) /\
  (_cancelled s = true -> _cancelled (deliver sigs s) = true) /\
  (SigApprove ∈ sigs -> _approved (deliver sigs s) = true) /\
  (forall reason, SigCancelOrder reason ∈ sigs -> _cancelled (deliver sigs s) = true).
Proof. apply deliver_flags. Qed.

(** X18. Of the four signals only DispatchFailed shows in the status
    query: a delivery without it leaves the answer of [status()] as it was. *)
Theorem status_ignores_other_signals sigs s :
  (forall reason, SigDispatchFailed reason ∉ sigs) ->
  status (deliver sigs s) = status s.
Proof.
  revert s. induction sigs as [|sg sigs IH]; intros s Hnone; [reflexivity|].
  rewrite deliver_cons, IH.
  - destruct sg; try reflexivity. exfalso. apply (Hnone reason). apply list_elem_of_here.
  - intros reason Hin. apply (Hnone reason). by apply list_elem_of_further.
Qed.

(** *** The run as a whole *)

Lemma gate_of_late_signals oid ex cs ss :
  run_to_gate oid (with_late_signals ex cs ss) = run_to_gate oid ex.
Proof. destruct ex. reflexivity. Qed.

(** The order the run carries from the gate on. *)
Lemma order_at_gate_eq oid ex :
  fst (fst (run_to_gate oid ex (init, []))) = received_order oid ex.
Proof.
  unfold received_order, run_to_gate, wbind, set_order_id, set_current_step,
    execute_activity, set_last_error, wret, init.
  destruct (receive_outcome ex), (validate_outcome ex); cbn;
    workflows_spec.step_wait;
    match goal with
    | |- context [if ?b then _ else _] => destruct b
    end; destruct r; cbn; done.
Qed.

#[local] Arguments last_step : simpl never.

Lemma last_step_step h snap : last_step (h ++ [Step snap]) = Some (snap_step snap).
Proof. unfold last_step, steps. rewrite omap_app. cbn. apply last_snoc. Qed.

Ltac unfold_from_gate :=
  unfold run_from_gate, wbind, self, set_current_step, set_last_error,
    execute_activity, start_child_workflow, wret, status.

(** X19. Every run ends in one of six steps, and its result says which:
    CANCELLED with status "cancelled", AWAITING_APPROVAL_TIMEOUT with
    "manual_review_timeout", VALIDATION_FAILED with "validation_failed",
    CHARGE_FAILED with "payment_failed", SHIPPING_START_FAILED with
    "shipping_start_failed" or COMPLETED with "success"; that step is the
    last one assigned and the result carries the order id. *)
Theorem run_ends_in_a_terminal_step oid pid ex :
  exists ending,
    ending ∈ endings /\
    current_step (final (execute oid pid ex)) = fst ending /\
    entry "status" (result_of (execute oid pid ex)) = Some (VStr (snd ending)) /\
    entry "order_id" (result_of (execute oid pid ex)) = Some (VStr oid) /\
    last_step (history (execute oid pid ex)) = Some (fst ending).
Proof.
  unfold final, result_of, history. rewrite workflows_spec.execute_split.
  destruct (run_to_gate oid ex (init, [])) as [[order valid] [g h]]; cbn [fst snd].
  unfold_from_gate. destruct g as [o st a c e ad]; cbn.
  destruct c; [|destruct a; [destruct valid;
    [destruct (charge_outcome ex); [destruct (shipping_outcome ex)|]|]|]];
    cbn;
    [ exists ("CANCELLED", "cancelled")
    | exists ("COMPLETED", "success")
    | exists ("SHIPPING_START_FAILED", "shipping_start_failed")
    | exists ("CHARGE_FAILED", "payment_failed")
    | exists ("VALIDATION_FAILED", "validation_failed")
    | exists ("AWAITING_APPROVAL_TIMEOUT", "manual_review_timeout") ];
    rewrite last_step_step;
    (split; [unfold endings; set_solver|]); done.
Qed.

(** X20. What arrives after the approval wait has resolved changes neither
    the result nor the final answer of the status query: signals delivered
    during the charge or the start of the child, a late CancelOrder
    included, are without effect on them. *)
Theorem late_signals_change_nothing oid pid ex during_charge during_start :
  result_of (execute oid pid (with_late_signals ex during_charge during_start)) =
    result_of (execute oid pid ex) /\
  status (final (execute oid pid (with_late_signals ex during_charge during_start))) =
    status (final (execute oid pid ex)).
Proof.
  unfold final, result_of. rewrite !workflows_spec.execute_split, gate_of_late_signals.
  destruct (run_to_gate oid ex (init, [])) as [[order valid] [g h]]; cbn [fst snd].
  unfold_from_gate. destruct g as [o st a c e ad]; cbn.
  destruct c; cbn; [done|]. destruct a; cbn; [|done]. destruct valid; cbn; [|done].
  destruct (charge_outcome ex); cbn.
  - destruct (shipping_outcome ex); cbn;
      rewrite !workflows_spec.deliver_order_id; cbn;
      rewrite ?workflows_spec.deliver_order_id; done.
  - rewrite !workflows_spec.deliver_order_id. done.
Qed.

(** X21. A charge invocation that raises ends the saga: with the gate
    passed (approved, not cancelled, valid), the run ends in CHARGE_FAILED
    with status "payment_failed", keeps the error in last_error and in the
    result, and starts no child. *)
Theorem charge_fault_ends_saga oid pid ex exc :
  _cancelled (at_gate oid ex) = false ->
  _approved (at_gate oid ex) = true ->
  valid_at_gate oid ex = true ->
  charge_outcome ex = Raised exc ->
  current_step (final (execute oid pid ex)) = "CHARGE_FAILED" /\
  result_of (execute oid pid ex) =
    VDict [("status", VStr "payment_failed"); ("order_id", VStr oid);
           ("error", VStr (if _is_timeout_exception exc
                           then "Activity task timed out during CHARGE"
                           else "Charge error: " +:+ exc))] /\
  _last_error (final (execute oid pid ex)) =
    Some (if _is_timeout_exception exc
          then "Activity task timed out during CHARGE"
          else "Charge error: " +:+ exc) /\
  children (history (execute oid pid ex)) = [].
Proof.
  intros Hc Ha Hv Hch. unfold final, result_of, history, at_gate, valid_at_gate in *.
  rewrite workflows_spec.execute_split.
  destruct (workflows_spec.gate_history oid ex) as (_ & _ & Hkids).
  destruct (run_to_gate oid ex (init, [])) as [[order valid] [g h]]; cbn [fst snd] in *.
  unfold_from_gate. destruct g as [o st a c e ad]; cbn in *. subst.
  rewrite Hch. cbn. repeat split. unfold children in *.
  rewrite !omap_app, Hkids. reflexivity.
Qed.

(** X22. A child that cannot be started ends the saga after the charge:
    with the gate passed and the charge invocation returned, a start that
    raises leaves the run in SHIPPING_START_FAILED with status
    "shipping_start_failed" and the message in last_error and in the
    result; the result does not carry the payment. *)
Theorem child_start_fault_ends_saga oid pid ex payment_result exc :
  _cancelled (at_gate oid ex) = false ->
  _approved (at_gate oid ex) = true ->
  valid_at_gate oid ex = true ->
  charge_outcome ex = Returned payment_result ->
  shipping_outcome ex = Raised exc ->
  current_step (final (execute oid pid ex)) = "SHIPPING_START_FAILED" /\
  result_of (execute oid pid ex) =
    VDict [("status", VStr "shipping_start_failed"); ("order_id", VStr oid);
           ("error", VStr ("Failed to start shipping child workflow: " +:+ exc))] /\
  _last_error (final (execute oid pid ex)) =
    Some ("Failed to start shipping child workflow: " +:+ exc) /\
  entry "payment" (result_of (execute oid pid ex)) = None.
Proof.
  intros Hc Ha Hv Hch Hsh. unfold final, result_of, at_gate, valid_at_gate in *.
  rewrite workflows_spec.execute_split.
  destruct (run_to_gate oid ex (init, [])) as [[order valid] [g h]]; cbn [fst snd] in *.
  unfold_from_gate. destruct g as [o st a c e ad]; cbn in *. subst.
  rewrite Hch. cbn. rewrite Hsh. cbn. done.
Qed.

(** The run up to the gate schedules no charge and starts no child. *)
Lemma gate_commands oid ex :
  charge_args (snd (snd (run_to_gate oid ex (init, [])))) = [] /\
  child_starts (snd (snd (run_to_gate oid ex (init, [])))) = [].
Proof.
  unfold run_to_gate, wbind, set_order_id, set_current_step, execute_activity,
    set_last_error, wret, init.
  destruct (receive_outcome ex), (validate_outcome ex); cbn;
    workflows_spec.step_wait;
    match goal with
    | |- context [if ?b then _ else _] => destruct b
    end; destruct r; cbn; done.
Qed.

(** X23. What a run asks of the substrate.  It schedules the receive and
    the validate activities, and the charge activity exactly when the gate
    is passed (approved, not cancelled, valid); the charge gets the received
    order and the payment id of the run.  It starts a child exactly when,
    past the gate, the charge invocation returned: one ShippingWorkflow on
    the queue "shipping-tq", with the received order and the parent's
    workflow id, under the id of the parent followed by "-shipping". *)
Theorem commands_of_a_run oid pid ex :
  scheduled (history (execute oid pid ex)) =
    [RECV_ACT; VALIDATE_ACT] ++ (if passes_gate oid ex then [CHARGE_ACT] else []) /\
  charge_args (history (execute oid pid ex)) =
    (if passes_gate oid ex
     then [VDict [("order", received_order oid ex); ("payment_id", VStr pid)]]
     else []) /\
  child_starts (history (execute oid pid ex)) =
    (if passes_gate oid ex && returned (charge_outcome ex)
     then [("ShippingWorkflow",
            VDict [("order", received_order oid ex);
                   ("parent_workflow_id", VStr (workflow_id ex))],
            workflow_id ex +:+ "-shipping", "shipping-tq")]
     else []).
Proof.
  unfold passes_gate, history, at_gate, valid_at_gate.
  rewrite workflows_spec.execute_split, <- (order_at_gate_eq oid ex).
  destruct (workflows_spec.gate_history oid ex) as (_ & Hsched & _).
  destruct (gate_commands oid ex) as (Hargs & Hstarts).
  destruct (run_to_gate oid ex (init, [])) as [[order valid] [g h]]; cbn [fst snd] in *.
  unfold_from_gate. unfold scheduled, charge_args, child_starts in *.
  destruct g as [o st a c e ad]; cbn.
  destruct c; cbn; [rewrite !omap_app, Hsched, Hargs, Hstarts; done|].
  destruct a; cbn; [|rewrite !omap_app, Hsched, Hargs, Hstarts; done].
  destruct valid; cbn; [|rewrite !omap_app, Hsched, Hargs, Hstarts; done].
  destruct (charge_outcome ex); cbn; [destruct (shipping_outcome ex); cbn|];
    rewrite !omap_app, Hsched, Hargs, Hstarts; done.
Qed.

(** A CancelOrder delivered before the wait leaves the flag set when the
    wait begins. *)
Lemma cancelled_before_wait reason rs vs s0 o st e :
  SigCancelOrder reason ∈ rs ++ vs ->
  _cancelled (deliver vs (Instance o st (_approved (deliver rs s0))
                            (_cancelled (deliver rs s0)) e (_address (deliver rs s0)))) = true.
Proof.
  intros [Hin|Hin]%elem_of_app.
  - destruct (deliver_flags rs s0) as (_ & _ & _ & Hset).
    match goal with
    | |- _cancelled (deliver vs ?s) = true =>
        destruct (deliver_flags vs s) as (_ & Hkept & _ & _)
    end.
    apply Hkept. cbn. by apply (Hset reason).
  - match goal with
    | |- _cancelled (deliver vs ?s) = true =>
        destruct (deliver_flags vs s) as (_ & _ & _ & Hset)
    end.
    by apply (Hset reason).
Qed.

(** X24. A cancellation that arrives before the approval wait, while the
    order is received or validated, is honoured as the wait begins: the
    wait resolves at once and the run ends in CANCELLED having scheduled
    the receive and validate activities only. *)
Theorem early_cancel oid pid ex reason :
  SigCancelOrder reason ∈ receive_signals ex ++ validate_signals ex ->
  current_step (final (execute oid pid ex)) = "CANCELLED" /\
  waits (history (execute oid pid ex)) = [(MANUAL_REVIEW_WINDOW, 0%Z)] /\
  scheduled (history (execute oid pid ex)) = [RECV_ACT; VALIDATE_ACT].
Proof.
  intros Hin.
  assert (Hgate : _cancelled (at_gate oid ex) = true /\
                  waits (snd (snd (run_to_gate oid ex (init, [])))) =
                    [(MANUAL_REVIEW_WINDOW, 0%Z)]).
  { unfold at_gate, run_to_gate, _wait_for_approval_or_cancel, wait_condition, wbind,
      set_order_id, set_current_step, execute_activity, set_last_error, wret, init.
    destruct (receive_outcome ex), (validate_outcome ex); cbn;
      rewrite (cancelled_before_wait reason _ _ _ _ _ _ Hin), orb_true_r; cbn; done. }
  destruct Hgate as [Hc Hw].
  destruct (workflows_spec.gate_history oid ex) as (_ & Hsched & _).
  unfold final, history, at_gate in *. rewrite workflows_spec.execute_split.
  destruct (run_to_gate oid ex (init, [])) as [[order valid] [g h]]; cbn [fst snd] in *.
  rewrite workflows_spec.from_gate_cancelled by done. cbn [fst snd current_step].
  unfold waits, scheduled in *. rewrite !omap_app, Hw, Hsched. done.
Qed.

(** *** Timeouts by their message *)

Lemma append_cons c a b : String c a +:+ b = String c (a +:+ b).
Proof. reflexivity. Qed.

Lemma lower_app a b : lower (a +:+ b) = lower a +:+ lower b.
Proof.
  induction a as [|c a IH]; [reflexivity|].
  rewrite append_cons. cbn [lower]. rewrite append_cons. f_equal. exact IH.
Qed.

Lemma lower_ascii_idemp c : lower_ascii (lower_ascii c) = lower_ascii c.
Proof. destruct c as [[] [] [] [] [] [] [] []]; reflexivity. Qed.

Lemma lower_idemp s : lower (lower s) = lower s.
Proof.
  induction s as [|c s IH]; cbn [lower]; [done|]. rewrite lower_ascii_idemp. f_equal. exact IH.
Qed.

Lemma prefix_app_r sub s b : String.prefix sub s = true -> String.prefix sub (s +:+ b) = true.
Proof.
  revert s. induction sub as [|c sub IH]; intros s; [intros _; by destruct (s +:+ b)|].
  destruct s as [|c' s]; [discriminate|]. rewrite append_cons. cbn [String.prefix].
  destruct (Ascii.ascii_dec c c'); [apply IH|done].
Qed.

Lemma contains_app_r sub s b : contains sub s = true -> contains sub (s +:+ b) = true.
Proof.
  induction s as [|c s IH].
  - cbn. rewrite orb_false_r. destruct sub; [|done]. intros _. by destruct b.
  - intros H. change (contains sub (String c s)) with
      (String.prefix sub (String c s) || contains sub s) in H.
    change (contains sub (String c s +:+ b)) with
      (String.prefix sub (String c s +:+ b) || contains sub (s +:+ b)).
    apply orb_true_iff in H as [H|H]; apply orb_true_iff.
    + left. by apply prefix_app_r.
    + right. by apply IH.
Qed.

Lemma contains_app_l sub a s : contains sub s = true -> contains sub (a +:+ s) = true.
Proof.
  intros H. induction a as [|c a IH]; [done|].
  change (contains sub (String c a +:+ s)) with
    (String.prefix sub (String c (a +:+ s)) || contains sub (a +:+ s)).
  rewrite IH. apply orb_true_r.
Qed.

(** X25. The test for a timeout looks at the message only, without regard
    to letter case or to what surrounds the words: a message it takes for a
    timeout is still taken for one in lower case and inside any longer
    message. *)
Theorem timeout_classification_stable exc before after :
  _is_timeout_exception exc = true ->
  _is_timeout_exception (lower exc) = true /\
  _is_timeout_exception (before +:+ exc +:+ after) = true.
Proof.
  unfold _is_timeout_exception. intros H. split.
  - by rewrite lower_idemp.
  - rewrite !lower_app. apply orb_true_iff in H as [H|H]; apply orb_true_iff;
      [left|right]; apply contains_app_l, contains_app_r, H.
Qed.

End workflows_more_spec.

(** ** ShippingWorkflow *)

Module shipping_spec.
Import shipping views order_activities.

Lemma get_of_dict v k dflt :
  is_dict v = true -> exists x, get v k dflt = Returned x.
Proof. destruct v; try discriminate. intros _. eexists. reflexivity. Qed.

(** X26. A child run returns only "dispatched", and only when both
    invocations returned, whatever they returned: it has then scheduled the
    prepare and the dispatch activities in this order, sent no signal and
    set no last error.  With a payload that is a dict (or empty) and both
    invocations returned, it does return "dispatched". *)
Theorem child_returns_only_dispatched payload cx :
  (forall s,
     child_result (run payload cx) = Returned s ->
     s = "dispatched" /\
     returned (prepare_outcome cx) = true /\
     returned (dispatch_outcome cx) = true /\
     activities_scheduled (child_history (run payload cx)) = [PREPARE_ACT; DISPATCH_ACT] /\
     signals_sent (child_history (run payload cx)) = [] /\
     child_last_error (run payload cx) = None) /\
  (is_dict (or_empty payload) = true ->
   returned (prepare_outcome cx) = true ->
   returned (dispatch_outcome cx) = true ->
   child_result (run payload cx) = Returned "dispatched").
Proof.
  unfold run, on_failure. split.
  - intros s. destruct (get (or_empty payload) "order" VNone) as [order|e]; [|discriminate].
    destruct (get (or_empty payload) "parent_workflow_id" VNone) as [parent|e];
      [|discriminate].
    destruct (prepare_outcome cx) as [p|exc].
    + destruct (dispatch_outcome cx) as [d|exc].
      * cbn. intros [= <-]. done.
      * destruct (get (or_empty order) "order_id" VNone); [|discriminate].
        destruct (truthy parent); [destruct (parent_signal_outcome cx)|]; discriminate.
    + destruct (get (or_empty order) "order_id" VNone); [|discriminate].
      destruct (truthy parent); [destruct (parent_signal_outcome cx)|]; discriminate.
  - intros Hdict Hp Hd.
    destruct (get_of_dict _ "order" VNone Hdict) as [order ->].
    destruct (get_of_dict _ "parent_workflow_id" VNone Hdict) as [parent ->].
    destruct (prepare_outcome cx); [|discriminate].
    destruct (dispatch_outcome cx); [|discriminate]. reflexivity.
Qed.

(** Looking up the function that line 207 calls raises. *)
Lemma signal_external_workflow_is_missing :
  exists attribute_error, workflow_attr "signal_external_workflow" = Raised attribute_error.
Proof. eexists. reflexivity. Qed.

(** X27. A child run never sends a signal, whatever its payload and
    whatever becomes of its two invocations: the commands it issues are the
    prepare activity and then, when that one returned, the dispatch
    activity, both on the order of the payload. *)
Theorem child_never_signals payload cx :
  signals_sent (child_history (run payload cx)) = [] /\
  (child_history (run payload cx) = [] \/
   exists order,
     get (or_empty payload) "order" VNone = Returned order /\
     (child_history (run payload cx) = [ChildActivity PREPARE_ACT (or_empty order)] /\
      returned (prepare_outcome cx) = false \/
      child_history (run payload cx) =
        [ChildActivity PREPARE_ACT (or_empty order); ChildActivity DISPATCH_ACT (or_empty order)] /\
      returned (prepare_outcome cx) = true)).
Proof.
  unfold run, on_failure.
  destruct signal_external_workflow_is_missing as [attribute_error ->].
  destruct (get (or_empty payload) "order" VNone) as [order|e]; [|split; [done|by left]].
  destruct (get (or_empty payload) "parent_workflow_id" VNone) as [parent|e];
    [|split; [done|by left]].
  destruct (prepare_outcome cx) as [p|exc]; [destruct (dispatch_outcome cx) as [d|exc]|];
    try (destruct (get (or_empty order) "order_id" VNone));
    try (destruct (truthy parent));
    (split; [reflexivity|]); right; exists order; (split; [reflexivity|]);
    cbn; tauto.
Qed.

(** X28. A failing child does not reach its parent: with a payload dict
    whose order is a dict (or missing), a prepare or dispatch invocation
    that raises makes the run raise that same exception and keep its
    message as last error, and no signal is sent, also when the payload
    names the parent: the call of line 207 fails on the lookup of its
    function and that failure is swallowed.  After a prepare that raised the
    dispatch activity is not scheduled. *)
Theorem child_failure_reaches_no_parent d order cx exc :
  get (VDict d) "order" VNone = Returned order ->
  is_dict (or_empty order) = true ->
  prepare_outcome cx = Raised exc \/
  (returned (prepare_outcome cx) = true /\ dispatch_outcome cx = Raised exc) ->
  child_result (run (VDict d) cx) = Raised exc /\
  signals_sent (child_history (run (VDict d) cx)) = [] /\
  child_last_error (run (VDict d) cx) = Some exc /\
  (prepare_outcome cx = Raised exc ->
   activities_scheduled (child_history (run (VDict d) cx)) = [PREPARE_ACT]).
Proof.
  intros Horder Hdict Hfail.
  assert (Hpayload : or_empty (VDict d) = VDict d) by (destruct d; reflexivity).
  unfold run, on_failure. rewrite Hpayload, Horder.
  destruct signal_external_workflow_is_missing as [attribute_error ->].
  destruct (get_of_dict (VDict d) "parent_workflow_id" VNone eq_refl) as [parent ->].
  destruct (get_of_dict _ "order_id" VNone Hdict) as [oid ->].
  destruct Hfail as [Hp|[Hp Hdisp]].
  - rewrite Hp. destruct (truthy parent); cbn; done.
  - destruct (prepare_outcome cx) as [p|e]; [|discriminate]. rewrite Hdisp.
    destruct (truthy parent); cbn; (repeat (split; [done|])); discriminate.
Qed.

Section with_collaborators.
Context (ext : collaborators) (stubs : function_stubs).

(** X29. A carrier that cannot be reached goes unnoticed by the child:
    when [carrier_dispatched] raises, the dispatch activity returns the dict
    of status "dispatch_failed" instead of raising, so the child run that
    receives the results of the two activities returns "dispatched" and
    sends no DispatchFailed signal to its parent. *)
Theorem carrier_failure_goes_unnoticed o parent w1 w2 sent exc :
  carrier_dispatched stubs (known_value o) = Raised exc ->
  fst (dispatch_carrier_activity ext stubs o w2) =
    Returned (VDict [("status", VStr "dispatch_failed"); ("order_id", VStr (known_id o));
                     ("error", VStr exc)]) /\
  child_result
    (run (VDict [("order", known_value o); ("parent_workflow_id", VStr parent)])
       (ChildExecution (fst (prepare_package_activity ext stubs o w1))
          (fst (dispatch_carrier_activity ext stubs o w2)) sent)) = Returned "dispatched" /\
  signals_sent
    (child_history
       (run (VDict [("order", known_value o); ("parent_workflow_id", VStr parent)])
          (ChildExecution (fst (prepare_package_activity ext stubs o w1))
             (fst (dispatch_carrier_activity ext stubs o w2)) sent))) = [].
Proof.
  intros Hcarrier.
  assert (Hdispatch :
    fst (dispatch_carrier_activity ext stubs o w2) =
      Returned (VDict [("status", VStr "dispatch_failed"); ("order_id", VStr (known_id o));
                       ("error", VStr exc)])).
  { unfold dispatch_carrier_activity. cbv zeta.
    erewrite charge_spec.try_except_raised
      by (erewrite charge_spec.bind_raised; [reflexivity|];
          unfold lift; rewrite Hcarrier; reflexivity).
    unfold bind. rewrite charge_spec.guarded_returns. reflexivity. }
  rewrite Hdispatch. split; [reflexivity|].
  assert (Hprepare : invariants.total (prepare_package_activity ext stubs o))
    by (unfold prepare_package_activity; cbv zeta; apply order_activities_spec.total_handled).
  destruct (Hprepare w1) as [p ->]. split; reflexivity.
Qed.

End with_collaborators.
End shipping_spec.

(** ** The properties at concrete inputs *)

Module witnesses.
Import activities order_activities workflows shipping views invariants.
Import examples more_examples.

Lemma sound_store_is_sound ext w k :
  db_fault ext = sound_store -> store_sound ext w k.
Proof. intros H i _. rewrite H. reflexivity. Qed.

Lemma upsert_order_idempotent_witness :
  orders (db (snd (times 3 (utils.upsert_order paying "O1" "PAID") empty_world))) !! "O1"
    = Some "PAID" /\
  events (db (snd (times 3 (utils.upsert_order paying "O1" "PAID") empty_world))) = [].
Proof.
  rewrite (store_spec.upsert_order_idempotent paying "O1" "PAID" 2 empty_world).
  - split; reflexivity.
  - by apply sound_store_is_sound.
Defined.

Lemma reserve_then_read_witness :
  fst ((utils.insert_payment_init paying "P1" "O9" ;;
        utils.ensure_payment_idempotent paying "P1")%act (snd first_charge)) =
    Returned (Some (PaymentRow "O1" "CHARGED" (85 # 2))).
Proof.
  rewrite (store_spec.reserve_then_read paying "P1" "O9" (snd first_charge)).
  - reflexivity.
  - by apply sound_store_is_sound.
Defined.

Lemma mark_unknown_payment_is_noop_witness :
  payments (db empty_world) !! "P7" = None /\
  db (snd (utils.update_payment_charged paying "P7" (85 # 2) empty_world)) = db empty_world.
Proof.
  split; [reflexivity|].
  apply (store_spec.mark_unknown_payment_is_noop paying "P7" (85 # 2) empty_world).
  reflexivity.
Defined.

Lemma uncharged_row_reaches_gateway_witness :
  row_status <$> payments (db (snd declined_charge)) !! "P1" = Some "FAILED" /\
  gateway_calls
    (snd (charge_payment_activity paying (Some (ChargePayload (Some bare_order_O1) (Some "P1")))
            (snd declined_charge))) =
    gateway_calls (snd declined_charge) ++ [(order_value bare_order_O1, "P1")].
Proof.
  split; [reflexivity|].
  apply (charge_spec.uncharged_row_reaches_gateway paying bare_order_O1 "O1" "P1"
           (snd declined_charge)).
  - reflexivity.
  - discriminate.
  - discriminate.
  - by apply sound_store_is_sound.
  - intros row Hrow. vm_compute in Hrow. injection Hrow as <-. discriminate.
Defined.

Lemma charge_success_witness :
  fst (charge_payment_activity paying_odd (Some (ChargePayload (Some bare_order_O1) (Some "P1")))
         empty_world) =
    Returned (VDict [("status", VStr "charged"); ("amount", VNum (inject_Z (2 ^ 53)))]) /\
  payments
    (db (snd (charge_payment_activity paying_odd
                (Some (ChargePayload (Some bare_order_O1) (Some "P1"))) empty_world))) !! "P1" =
    Some (PaymentRow "O1" "CHARGED" (inject_Z (2 ^ 53))).
Proof.
  rewrite (charge_spec.charge_success paying_odd bare_order_O1 "O1" "P1" empty_world
             charged_odd (VNum (inject_Z (2 ^ 53 + 1))) (inject_Z (2 ^ 53))).
  - split; reflexivity.
  - reflexivity.
  - discriminate.
  - discriminate.
  - by apply sound_store_is_sound.
  - intros row Hrow. vm_compute in Hrow. discriminate.
  - reflexivity.
  - reflexivity.
  - vm_compute. reflexivity.
Defined.


Lemma charge_declined_witness :
  fst (charge_payment_activity declining (Some (ChargePayload (Some bare_order_O1) (Some "P1")))
         empty_world) =
    Returned (VDict [("status", VStr "failed"); ("payment_id", VStr "P1");
                     ("error", VStr "card declined")]).
Proof.
  rewrite (charge_spec.charge_declined declining bare_order_O1 "O1" "P1" empty_world
             "card declined").
  - reflexivity.
  - reflexivity.
  - discriminate.
  - discriminate.
  - by apply sound_store_is_sound.
  - intros row Hrow. vm_compute in Hrow. discriminate.
  - reflexivity.
Defined.

Lemma charged_then_reported_failed_witness :
  payments
    (db (snd (charge_payment_activity audit_refused
                (Some (ChargePayload (Some bare_order_O1) (Some "P1"))) empty_world))) !! "P1" =
    Some (PaymentRow "O1" "FAILED" (85 # 2)) /\
  length
    (gateway_calls
       (snd (charge_payment_activity audit_refused
               (Some (ChargePayload (Some bare_order_O1) (Some "P1"))) empty_world))) = 1%nat.
Proof.
  destruct (charge_spec.charged_then_reported_failed audit_refused bare_order_O1 "O1" "P1"
              empty_world charged_4250 (VNum (85 # 2)) (85 # 2) "connection lost")
    as (_ & Hrow & Hcalls).
  - reflexivity.
  - discriminate.
  - discriminate.
  - intros i Hi. do 9 (destruct i as [|i]; [reflexivity|]). lia.
  - reflexivity.
  - intros i Hi. do 3 (destruct i as [|i]; [reflexivity|]). lia.
  - intros row Hrow. vm_compute in Hrow. discriminate.
  - reflexivity.
  - reflexivity.
  - reflexivity.
  - rewrite Hrow, Hcalls. split; reflexivity.
Defined.

Lemma stub_fault_is_returned_witness :
  fst (dispatch_carrier_activity unreachable_store stubs_down known_O1 empty_world) =
    Returned (VDict [("status", VStr "dispatch_failed"); ("order_id", VStr "O1");
                     ("error", VStr "service unavailable")]).
Proof.
  apply (order_activities_spec.stub_fault_is_returned unreachable_store stubs_down
           "service unavailable" empty_world).
  reflexivity.
Defined.

Lemma validate_true_means_recorded_witness :
  fst (validate_order_activity paying stubs_fine known_O1 empty_world) = Returned (VBool true) /\
  exists valid,
    order_validated stubs_fine (known_value known_O1) = Returned valid /\
    truthy valid = true /\
    orders (db (snd (validate_order_activity paying stubs_fine known_O1 empty_world)))
      !! known_id known_O1 = Some "VALIDATED" /\
    events (db (snd (validate_order_activity paying stubs_fine known_O1 empty_world))) =
      events (db empty_world) ++
      [EventRow (known_id known_O1) "ORDER_VALIDATED" (VDict [("valid", valid)])].
Proof.
  split; [reflexivity|].
  destruct (order_activities_spec.validate_true_means_recorded paying stubs_fine known_O1
              empty_world) as (b & Hb & Hrecorded).
  apply Hrecorded. vm_compute in Hb. congruence.
Defined.

Lemma store_fault_invalidates_order_witness :
  order_validated stubs_fine (known_value known_O1) = Returned (VBool true) /\
  fst (validate_order_activity unreachable_store stubs_fine known_O1 empty_world) =
    Returned (VBool false).
Proof.
  split; [reflexivity|].
  apply (order_activities_spec.store_fault_invalidates_order unreachable_store stubs_fine
           known_O1 empty_world (VBool true) "connection refused"); reflexivity.
Defined.

Lemma flags_only_set_witness :
  _approved (deliver [SigApprove; SigUpdateAddress VNone; SigDispatchFailed "late"] init) = true.
Proof.
  apply (workflows_more_spec.flags_only_set
           [SigApprove; SigUpdateAddress VNone; SigDispatchFailed "late"] init).
  apply list_elem_of_here.
Defined.

Lemma status_ignores_other_signals_witness :
  status (deliver [SigApprove; SigCancelOrder "changed my mind"; SigUpdateAddress VNone] init) =
    status init.
Proof.
  apply (workflows_more_spec.status_ignores_other_signals
           [SigApprove; SigCancelOrder "changed my mind"; SigUpdateAddress VNone] init).
  intros reason Hin.
  repeat (apply elem_of_cons in Hin as [Hin|Hin]; [discriminate Hin|]).
  by apply elem_of_nil in Hin.
Defined.

Lemma charge_fault_ends_saga_witness :
  current_step (final (execute "O1" "P1" ex_charge_fault)) = "CHARGE_FAILED" /\
  _last_error (final (execute "O1" "P1" ex_charge_fault)) =
    Some "Activity task timed out during CHARGE".
Proof.
  destruct (workflows_more_spec.charge_fault_ends_saga "O1" "P1" ex_charge_fault
              "activity StartToClose timeout") as (Hstep & _ & Herr & _);
    [reflexivity..|].
  rewrite Hstep, Herr. split; reflexivity.
Defined.

Lemma child_start_fault_ends_saga_witness :
  current_step (final (execute "O1" "P1" ex_child_fault)) = "SHIPPING_START_FAILED" /\
  _last_error (final (execute "O1" "P1" ex_child_fault)) =
    Some "Failed to start shipping child workflow: task queue not found".
Proof.
  destruct (workflows_more_spec.child_start_fault_ends_saga "O1" "P1" ex_child_fault
              charged_4250 "task queue not found") as (Hstep & _ & Herr & _);
    [reflexivity..|].
  rewrite Hstep, Herr. split; reflexivity.
Defined.

Lemma early_cancel_witness :
  current_step (final (execute "O1" "P1" ex_early_cancel)) = "CANCELLED" /\
  waits (history (execute "O1" "P1" ex_early_cancel)) = [(MANUAL_REVIEW_WINDOW, 0%Z)] /\
  scheduled (history (execute "O1" "P1" ex_early_cancel)) = [RECV_ACT; VALIDATE_ACT].
Proof.
  apply (workflows_more_spec.early_cancel "O1" "P1" ex_early_cancel "wrong address").
  apply list_elem_of_here.
Defined.

Lemma timeout_classification_stable_witness :
  _is_timeout_exception "Timed Out" = true /\
  _is_timeout_exception ("Activity task failed: " +:+ "Timed Out" +:+ " (attempt 5)") = true.
Proof.
  split; [reflexivity|].
  apply (workflows_more_spec.timeout_classification_stable "Timed Out"
           "Activity task failed: " " (attempt 5)").
  reflexivity.
Defined.

Lemma child_failure_reaches_no_parent_witness :
  truthy (VStr "O1") = true /\
  get (VDict child_payload) "parent_workflow_id" VNone = Returned (VStr "O1") /\
  child_result (run (VDict child_payload) cx_dispatch_fault) =
    Raised "carrier dispatch failed for O1" /\
  signals_sent (child_history (run (VDict child_payload) cx_dispatch_fault)) = [].
Proof.
  split; [reflexivity|]. split; [reflexivity|].
  destruct (shipping_spec.child_failure_reaches_no_parent child_payload examples.order_O1
              cx_dispatch_fault "carrier dispatch failed for O1")
    as (Hres & Hsig & _).
  - reflexivity.
  - reflexivity.
  - right. split; reflexivity.
  - rewrite Hres, Hsig. split; reflexivity.
Defined.

Lemma carrier_failure_goes_unnoticed_witness :
  carrier_dispatched stubs_down (known_value known_O1) = Raised "service unavailable" /\
  child_result
    (run (VDict [("order", known_value known_O1); ("parent_workflow_id", VStr "O1")])
       (ChildExecution (fst (prepare_package_activity paying stubs_down known_O1 empty_world))
          (fst (dispatch_carrier_activity paying stubs_down known_O1 empty_world))
          (Returned tt))) = Returned "dispatched".
Proof.
  split; [reflexivity|].
  apply (shipping_spec.carrier_failure_goes_unnoticed paying stubs_down known_O1 "O1"
           empty_world empty_world (Returned tt) "service unavailable").
  reflexivity.
Defined.

End witnesses.
